(** * Redshift unload/copy utility: the pipeline builder

    A shallow embedding of [src/UnloadCopyUtility/redshift_unload_copy.py]:
    [ConfigHelper], and the class [UnloadCopyTool] that merges one five-stage
    pipeline per table into a single task graph and runs it.

    The classes of [util.tasks], [util.resources], [util.s3_utils] and
    [global_config] are imported by that file and live elsewhere.  Their
    data is modelled by records; the task manager follows section 4.1 of the
    design document; every other collaborator is a field of [Env]. *)

From Stdlib Require Import String List Bool Arith Lia.
Import ListNotations.
Local Open Scope string_scope.
Local Open Scope list_scope.
Local Open Scope nat_scope.


(* ===================================================================== *)
(** ** Data of the collaborators *)
(* ===================================================================== *)

(** One of the dictionaries [config['unloadSource']], [config['copyTarget']].
    [explicit_ids] is [None] when the key is absent, else the truth value
    stored under it; [payload] stands for the rest of the dictionary. *)
Record ClusterDict := {
  payload : string;
  explicit_ids : option bool
}.

(** The configuration dictionary, with the two keys the program indexes. *)
Record Config := {
  unloadSource : ClusterDict;
  copyTarget : ClusterDict
}.

(** [global_config_values], restricted to the keys the builder reads.  A
    Python value used as a condition is kept as its truth value;
    [tableName] is [None] or a string. *)
Record GlobalConfigValues := {
  tableName : option string;
  connectionPreTest : bool;
  destinationTablePreTest : bool;
  sourceTablePreTest : bool;
  destinationTableAutoCreate : bool
}.

(** A cluster object.  [cluster_id] is the identity of the Python object. *)
Record Cluster := {
  cluster_id : nat;
  cluster_dict : ClusterDict;
  cluster_region : string
}.

(** The resource classes of [util.resources].  [Resource_] is any resource
    that is no database, schema or table resource. *)
Inductive ResourceClass := Resource_ | DBResource | SchemaResource | TableResource.

Record Resource := {
  class_of : ResourceClass;
  cluster : Cluster;
  schema : string;
  table : string;
  explicit_ids_set : bool
}.

(** The class declarations are not part of the file: a table resource is a
    schema resource, a schema resource a database resource, which is the
    order in which [__init__] tests them. *)
Definition isinstance (r : Resource) (c : ResourceClass) : bool :=
  match c, class_of r with
  | Resource_, _ => true
  | DBResource, (DBResource | SchemaResource | TableResource) => true
  | SchemaResource, (SchemaResource | TableResource) => true
  | TableResource, TableResource => true
  | _, _ => false
  end.

Definition get_cluster (r : Resource) : Cluster := cluster r.
Definition get_schema (r : Resource) : string := schema r.

Definition set_table (r : Resource) (t : string) : Resource :=
  {| class_of := class_of r; cluster := cluster r; schema := schema r;
     table := t; explicit_ids_set := explicit_ids_set r |}.

Definition set_cluster (r : Resource) (c : Cluster) : Resource :=
  {| class_of := class_of r; cluster := c; schema := schema r;
     table := table r; explicit_ids_set := explicit_ids_set r |}.

Definition set_explicit_ids (r : Resource) (b : bool) : Resource :=
  {| class_of := class_of r; cluster := cluster r; schema := schema r;
     table := table r; explicit_ids_set := b |}.

(** [SchemaResource(cluster, schema)] and [TableResource(cluster, schema, table)]. *)
Definition new_SchemaResource (c : Cluster) (s : string) : Resource :=
  {| class_of := SchemaResource; cluster := c; schema := s;
     table := ""; explicit_ids_set := false |}.

Definition new_TableResource (c : Cluster) (s t : string) : Resource :=
  {| class_of := TableResource; cluster := c; schema := s;
     table := t; explicit_ids_set := false |}.

Record S3Helper := { s3_region : string }.

Record ConfigHelper := {
  ch_s3_helper : option S3Helper;
  config : Config
}.

(** [S3Details(config_helper, source, encryption_key_id=...)]. *)
Record S3Details := {
  s3_config : Config;
  s3_source : Resource;
  encryption_key_id : string
}.

Definition encryptionKeyID : string := "alias/RedshiftUnloadCopyUtility".

(* ===================================================================== *)
(** ** Tasks *)
(* ===================================================================== *)

(** The task classes of [util.tasks] with the arguments of their
    constructors. *)
Inductive TaskKind :=
| NoOperationTask
| FailIfResourceClusterDoesNotExistsTask (resource : Resource)
| FailIfResourceDoesNotExistsTask (resource : Resource)
| CreateIfTargetDoesNotExistTask (source_resource target_resource : Resource)
| UnloadDataToS3Task (source : Resource) (s3_details : S3Details)
| CopyDataFromS3Task (destination : Resource) (s3_details : S3Details)
| CleanupS3StagingAreaTask (s3_details : S3Details).

(** A task object; its identity is its handle in the graph. *)
Record Task := {
  task_id : nat;
  task_kind : TaskKind
}.

(** The stage of the pipeline a task class belongs to. *)
Inductive Stage :=
| Barrier | ClusterPreTest | ResourcePreTest | Creation | Unload | Copy | Cleanup.

Definition stage_of (k : TaskKind) : Stage :=
  match k with
  | NoOperationTask => Barrier
  | FailIfResourceClusterDoesNotExistsTask _ => ClusterPreTest
  | FailIfResourceDoesNotExistsTask _ => ResourcePreTest
  | CreateIfTargetDoesNotExistTask _ _ => Creation
  | UnloadDataToS3Task _ _ => Unload
  | CopyDataFromS3Task _ _ => Copy
  | CleanupS3StagingAreaTask _ => Cleanup
  end.

Definition stage_eqb (a b : Stage) : bool :=
  match a, b with
  | Barrier, Barrier | ClusterPreTest, ClusterPreTest
  | ResourcePreTest, ResourcePreTest | Creation, Creation
  | Unload, Unload | Copy, Copy | Cleanup, Cleanup => true
  | _, _ => false
  end.

Definition stage (t : Task) : Stage := stage_of (task_kind t).

(* ===================================================================== *)
(** ** The task graph *)
(* ===================================================================== *)

Module TaskManager.

(** Modelled from the spec: [util.tasks.TaskManager] is not in the file.
    Section 3 makes the graph a mapping from handle to task plus the edge
    set; the tasks are kept in the order they were added, an edge [(a, b)]
    says that [a] must succeed before [b] starts. *)
Record t := {
  tasks : list Task;
  edges : list (nat * nat)
}.

Definition empty : t := {| tasks := []; edges := [] |}.

Inductive GraphBuildError := CycleError | UnknownHandleError.

Definition lookup (tm : t) (h : nat) : option Task :=
  find (fun x => task_id x =? h) (tasks tm).

Definition known (tm : t) (h : nat) : bool :=
  match lookup tm h with Some _ => true | None => false end.

(** [reachb E n a b]: some path of at most [n] edges of [E] leads from [a]
    to [b]. *)
Fixpoint reachb (E : list (nat * nat)) (n : nat) (a b : nat) : bool :=
  match n with
  | O => false
  | S n' =>
      existsb (fun e =>
                 if fst e =? a
                 then if snd e =? b then true else reachb E n' (snd e) b
                 else false) E
  end.

(** No edge starts a path that comes back to its source. *)
Definition acyclicb (E : list (nat * nat)) : bool :=
  forallb (fun e => negb (reachb E (length E) (fst e) (fst e))) E.

(** The graph once [task] is inserted with its edges. *)
Definition insert (tm : t) (task : Task) (dependencies dependency_of : list Task) : t :=
  {| tasks := tasks tm ++ [task];
     edges := edges tm
              ++ map (fun d => (task_id d, task_id task)) dependencies
              ++ map (fun s => (task_id task, task_id s)) dependency_of |}.

(** Modelled from the spec: section 4.1, [add(task, dependencies,
    dependency_of)] inserts [task], adds an edge dependency -> task for
    each dependency and an edge task -> target for each target of
    [dependency_of]; it fails with [UnknownHandleError] if a referenced
    handle was never added and with [CycleError] if the new edge set is
    not acyclic.  A failed [add] leaves the graph as it was. *)
Definition add (tm : t) (task : Task) (dependencies dependency_of : list Task)
  : GraphBuildError + t :=
  if negb (forallb (fun x => known tm (task_id x)) (dependencies ++ dependency_of))
  then inl UnknownHandleError
  else
    let tm' := insert tm task dependencies dependency_of in
    if acyclicb (edges tm') then inr tm' else inl CycleError.

(** [a] is ordered before [b]: a non-empty path of edges leads from [a] to
    [b]. *)
Inductive precedes (tm : t) : nat -> nat -> Prop :=
| precedes_edge a b : In (a, b) (edges tm) -> precedes tm a b
| precedes_step a b c : In (a, b) (edges tm) -> precedes tm b c -> precedes tm a c.

End TaskManager.

(* ===================================================================== *)
(** ** Effects *)
(* ===================================================================== *)

Inductive Exception :=
| NotImplementedError
| Exception_ (message : string)
| GraphBuild (e : TaskManager.GraphBuildError)
| External (message : string).

(** What the program does that a caller can observe, oldest first.  The
    three [Enter_] events mark the entry of a builder method. *)
Inductive Event :=
| Enter_add_database_migration (source destination : Resource)
| Enter_add_schema_migration (source destination : Resource)
| Enter_add_table_migration (source destination : Resource)
| Log_fatal (message : string)
| Run (max_threads : nat) (graph : TaskManager.t).

(** The mutable state the builder works on: the counter of Python objects
    created so far, the task manager [self.task_manager], the module-level
    dictionary [config_parameters], and the events so far. *)
Record Heap := {
  next_id : nat;
  task_manager : TaskManager.t;
  config_parameters : option GlobalConfigValues;
  trace : list Event
}.

Definition M (A : Type) : Type := Heap -> (Exception + A) * Heap.

Definition ret {A} (a : A) : M A := fun h => (inr a, h).

Definition bind {A B} (m : M A) (f : A -> M B) : M B :=
  fun h =>
    match m h with
    | (inl e, h') => (inl e, h')
    | (inr a, h') => f a h'
    end.

Definition raise {A} (e : Exception) : M A := fun h => (inl e, h).

Declare Scope py_scope.
Delimit Scope py_scope with py.
Notation "x <- m ;; k" := (bind m (fun x => k))
  (at level 61, m at next level, right associativity) : py_scope.
Notation "m ;; k" := (bind m (fun _ => k))
  (at level 61, right associativity) : py_scope.
Local Open Scope py_scope.

(** A result handed back by a collaborator. *)
Definition lift {A} (r : Exception + A) : M A := fun h => (r, h).

(** The heap once an event is observed, once an object is created, once
    the task manager is replaced. *)
Definition logged (h : Heap) (e : Event) : Heap :=
  {| next_id := next_id h; task_manager := task_manager h;
     config_parameters := config_parameters h; trace := trace h ++ [e] |}.

Definition bump (h : Heap) : Heap :=
  {| next_id := S (next_id h); task_manager := task_manager h;
     config_parameters := config_parameters h; trace := trace h |}.

Definition with_task_manager (h : Heap) (tm : TaskManager.t) : Heap :=
  {| next_id := next_id h; task_manager := tm;
     config_parameters := config_parameters h; trace := trace h |}.

Definition emit (e : Event) : M unit := fun h => (inr tt, logged h e).

(** The identity of a newly created object. *)
Definition fresh : M nat := fun h => (inr (next_id h), bump h).

(** A task constructor: [NoOperationTask()], [UnloadDataToS3Task(...)], ... *)
Definition new_task (k : TaskKind) : M Task :=
  i <- fresh ;; ret {| task_id := i; task_kind := k |}.

(** [self.task_manager = TaskManager()]. *)
Definition new_TaskManager : M unit :=
  fun h => (inr tt, with_task_manager h TaskManager.empty).

(** [self.task_manager.add_task(task, dependency_of=..., dependencies=...)];
    an omitted keyword is the empty list, a task passed alone a list of one. *)
Definition add_task (task : Task) (dependencies dependency_of : list Task) : M unit :=
  fun h =>
    match TaskManager.add (task_manager h) task dependencies dependency_of with
    | inl e => (inl (GraphBuild e), h)
    | inr tm' => (inr tt, with_task_manager h tm')
    end.

(** Modelled from the spec: [TaskManager.run] is not in the file.  Section
    4.3 has the executor consume the graph with a bound on the workers; the
    invocation is recorded with that bound and the graph it is given, the
    scheduling itself is left out. *)
Definition run (max_threads : nat) : M unit :=
  fun h => emit (Run max_threads (task_manager h)) h.

Definition set_config_parameters (g : GlobalConfigValues) : M unit :=
  fun h => (inr tt, {| next_id := next_id h; task_manager := task_manager h;
                       config_parameters := Some g; trace := trace h |}).

(** [for x in xs: body(x)]. *)
Fixpoint for_each {A} (xs : list A) (body : A -> M unit) : M unit :=
  match xs with
  | [] => ret tt
  | x :: xs' => body x ;; for_each xs' body
  end.

(* ===================================================================== *)
(** ** The program *)
(* ===================================================================== *)

(** The collaborators the program calls and whose code is elsewhere: the
    file system and the S3 helper that deliver the configuration, the
    resource factory, and the two catalogue queries on a live cluster. *)
Record Env := {
  (** [json.load(open(config_path))] *)
  open_json : string -> Exception + Config;
  (** [s3_helper.get_json_config_as_dict(config_path)] *)
  get_json_config_as_dict : S3Helper -> string -> Exception + Config;
  (** [ResourceFactory.get_source_resource_from_config_helper] *)
  get_source_resource_from_config_helper : ConfigHelper -> string -> Resource;
  (** [ResourceFactory.get_target_resource_from_config_helper] *)
  get_target_resource_from_config_helper : ConfigHelper -> string -> Resource;
  (** [ResourceFactory.get_table_resource_from_merging_2_resources] *)
  get_table_resource_from_merging_2_resources : Resource -> Resource -> Resource;
  (** [source.list_schemas()] *)
  list_schemas : Resource -> list string;
  (** [source.list_tables()] *)
  list_tables : Resource -> list string
}.

(** Modelled from the spec: [ResourceFactory.get_cluster_from_cluster_dict]
    is not in the file; section 1 keeps the resource abstractions outside
    the design.  Each call constructs a cluster object of its own from the
    dictionary, which is what the caller's comment relies on. *)
Definition get_cluster_from_cluster_dict (d : ClusterDict) (region : string) : M Cluster :=
  i <- fresh ;; ret {| cluster_id := i; cluster_dict := d; cluster_region := region |}.

(** The fields of an [UnloadCopyTool] object that are assigned once;
    [self.task_manager] is the task manager of the heap. *)
Record UnloadCopyTool := {
  region : string;
  s3_helper : S3Helper;
  config_helper : ConfigHelper;
  barrier_after_all_cluster_pre_tests : Task;
  barrier_after_all_resource_pre_tests : Task
}.

(** Truth value of [global_config_values['tableName']]. *)
Definition truthy (v : option string) : bool :=
  match v with
  | None => false
  | Some s => negb (String.eqb s "")
  end.

Section Program.

Variable env : Env.

(** [ConfigHelper.__init__(self, config_path, s3_helper=None)] *)
Definition ConfigHelper_init (config_path : string) (s3_helper : option S3Helper)
  : M ConfigHelper :=
  if String.prefix "s3://" config_path then
    match s3_helper with
    | None => raise (Exception_ "No region set to get config file but it resides on S3")
    | Some helper =>
        c <- lift (get_json_config_as_dict env helper config_path) ;;
        ret {| ch_s3_helper := s3_helper; config := c |}
    end
  else
    c <- lift (open_json env config_path) ;;
    ret {| ch_s3_helper := s3_helper; config := c |}.

(** [UnloadCopyTool.add_table_migration(self, source, destination,
    global_config_values)] *)
Definition add_table_migration (self : UnloadCopyTool)
    (source destination : Resource) (global_config_values : GlobalConfigValues)
  : M unit :=
  emit (Enter_add_table_migration source destination) ;;
  let destination :=
    match explicit_ids (copyTarget (config (config_helper self))) with
    | Some true => set_explicit_ids destination true
    | _ => destination
    end in
  (if connectionPreTest global_config_values then
     (if negb (destinationTablePreTest global_config_values) then
        destination_cluster_pre_test <-
          new_task (FailIfResourceClusterDoesNotExistsTask destination) ;;
        add_task destination_cluster_pre_test
          [] [barrier_after_all_cluster_pre_tests self]
      else ret tt) ;;
     (if negb (sourceTablePreTest global_config_values) then
        source_cluster_pre_test <-
          new_task (FailIfResourceClusterDoesNotExistsTask source) ;;
        add_task source_cluster_pre_test
          [] [barrier_after_all_cluster_pre_tests self]
      else ret tt)
   else ret tt) ;;
  (if destinationTablePreTest global_config_values then
     if destinationTableAutoCreate global_config_values then
       destination_cluster_pre_test <-
         new_task (FailIfResourceClusterDoesNotExistsTask destination) ;;
       add_task destination_cluster_pre_test
         [] [barrier_after_all_cluster_pre_tests self]
     else
       destination_table_pre_test <-
         new_task (FailIfResourceDoesNotExistsTask destination) ;;
       add_task destination_table_pre_test
         [barrier_after_all_cluster_pre_tests self]
         [barrier_after_all_resource_pre_tests self]
   else ret tt) ;;
  (if sourceTablePreTest global_config_values then
     source_table_pre_test <- new_task (FailIfResourceDoesNotExistsTask source) ;;
     add_task source_table_pre_test
       [barrier_after_all_cluster_pre_tests self]
       [barrier_after_all_resource_pre_tests self]
   else ret tt) ;;
  (if destinationTableAutoCreate global_config_values then
     create_target <- new_task (CreateIfTargetDoesNotExistTask source destination) ;;
     add_task create_target
       [barrier_after_all_cluster_pre_tests self]
       [barrier_after_all_resource_pre_tests self]
   else ret tt) ;;
  let s3_details :=
    {| s3_config := config (config_helper self); s3_source := source;
       encryption_key_id := encryptionKeyID |} in
  unload_data <- new_task (UnloadDataToS3Task source s3_details) ;;
  add_task unload_data [barrier_after_all_resource_pre_tests self] [] ;;
  copy_data <- new_task (CopyDataFromS3Task destination s3_details) ;;
  add_task copy_data [unload_data] [] ;;
  s3_cleanup <- new_task (CleanupS3StagingAreaTask s3_details) ;;
  add_task s3_cleanup [copy_data] [].

(** [UnloadCopyTool.add_schema_migration(self, source, destination,
    global_config_values)] *)
Definition add_schema_migration (self : UnloadCopyTool)
    (source destination : Resource) (global_config_values : GlobalConfigValues)
  : M unit :=
  emit (Enter_add_schema_migration source destination) ;;
  let tables := list_tables env source in
  for_each tables (fun table =>
    source_cluster <-
      get_cluster_from_cluster_dict
        (unloadSource (config (config_helper self))) (region self) ;;
    let source_table := new_TableResource source_cluster (get_schema source) table in
    destination_cluster <-
      get_cluster_from_cluster_dict
        (copyTarget (config (config_helper self))) (region self) ;;
    let target_table :=
      get_table_resource_from_merging_2_resources env destination source_table in
    let target_table := set_cluster target_table destination_cluster in
    add_table_migration self source_table target_table global_config_values).

(** [UnloadCopyTool.add_database_migration(self, source, destination,
    global_config_values)] *)
Definition add_database_migration (self : UnloadCopyTool)
    (source destination : Resource) (global_config_values : GlobalConfigValues)
  : M unit :=
  emit (Enter_add_database_migration source destination) ;;
  let schemas := list_schemas env source in
  for_each schemas (fun schema =>
    let source_schema := new_SchemaResource (get_cluster source) schema in
    add_schema_migration self source_schema destination global_config_values).

(** The branch of [__init__] on the classes of the two resources. *)
Definition dispatch (self : UnloadCopyTool) (source destination : Resource)
    (global_config_values : GlobalConfigValues) : M unit :=
  if isinstance source TableResource then
    if isinstance destination DBResource then
      let destination :=
        if negb (isinstance destination TableResource)
        then get_table_resource_from_merging_2_resources env destination source
        else destination in
      let destination :=
        if truthy (tableName global_config_values)
           && negb (match tableName global_config_values with
                    | Some s => String.eqb s "None"
                    | None => false
                    end)
        then match tableName global_config_values with
             | Some s => set_table destination s
             | None => destination
             end
        else destination in
      add_table_migration self source destination global_config_values
    else
      emit (Log_fatal "Destination should be a database resource") ;;
      raise NotImplementedError
  else if isinstance source SchemaResource then
    (if negb (isinstance destination DBResource) then
       emit (Log_fatal "Destination should be a database resource") ;;
       raise NotImplementedError
     else ret tt) ;;
    add_schema_migration self source destination global_config_values
  else if isinstance source DBResource then
    (if negb (isinstance destination DBResource) then
       emit (Log_fatal "Destination should be a database resource") ;;
       raise NotImplementedError
     else ret tt) ;;
    add_database_migration self source destination global_config_values
  else
    emit (Log_fatal
      "Source is not a Table, this type of unload-copy is currently not supported.") ;;
    raise NotImplementedError.

(** [UnloadCopyTool.__init__(self, config_file, region_name,
    global_config_values)]; the result is the object built. *)
Definition UnloadCopyTool_init (config_file region_name : string)
    (global_config_values : GlobalConfigValues) : M UnloadCopyTool :=
  set_config_parameters global_config_values ;;
  let s3_helper := {| s3_region := region_name |} in
  config_helper <- ConfigHelper_init config_file (Some s3_helper) ;;
  let source := get_source_resource_from_config_helper env config_helper region_name in
  let destination := get_target_resource_from_config_helper env config_helper region_name in
  new_TaskManager ;;
  barrier_after_all_cluster_pre_tests <- new_task NoOperationTask ;;
  add_task barrier_after_all_cluster_pre_tests [] [] ;;
  barrier_after_all_resource_pre_tests <- new_task NoOperationTask ;;
  add_task barrier_after_all_resource_pre_tests [] [] ;;
  let self :=
    {| region := region_name; s3_helper := s3_helper;
       config_helper := config_helper;
       barrier_after_all_cluster_pre_tests := barrier_after_all_cluster_pre_tests;
       barrier_after_all_resource_pre_tests := barrier_after_all_resource_pre_tests |} in
  dispatch self source destination global_config_values ;;
  run 4 ;;
  ret self.

End Program.

(** An empty heap: no object created, nothing added, nothing observed. *)
Definition empty_heap : Heap :=
  {| next_id := 0; task_manager := TaskManager.empty;
     config_parameters := None; trace := [] |}.


(* ===================================================================== *)
(** ** Observations and the invariant of the builder *)
(* ===================================================================== *)

(** The calls of [add_table_migration] among some events, with their
    arguments, in order. *)
Definition table_calls (evs : list Event) : list (Resource * Resource) :=
  flat_map (fun e => match e with
                     | Enter_add_table_migration s d => [(s, d)]
                     | _ => []
                     end) evs.

(** The calls of [add_schema_migration] among some events. *)
Definition schema_calls (evs : list Event) : list (Resource * Resource) :=
  flat_map (fun e => match e with
                     | Enter_add_schema_migration s d => [(s, d)]
                     | _ => []
                     end) evs.

(** The invocations of the executor among some events. *)
Definition runs (evs : list Event) : list (nat * TaskManager.t) :=
  flat_map (fun e => match e with
                     | Run n g => [(n, g)]
                     | _ => []
                     end) evs.

(** The tasks of a given stage. *)
Definition at_stage (st : Stage) (ts : list Task) : list Task :=
  filter (fun t => stage_eqb (stage t) st) ts.

Definition enter_table (c : Resource * Resource) : Event :=
  Enter_add_table_migration (fst c) (snd c).

(** The identities of the two cluster objects a call works on. *)
Definition call_clusters (c : Resource * Resource) : list nat :=
  [cluster_id (cluster (fst c)); cluster_id (cluster (snd c))].

(** A set [X] of handles is closed under the edges [E]. *)
Definition closedb (E : list (nat * nat)) (X : list nat) : bool :=
  forallb (fun e => implb (existsb (Nat.eqb (fst e)) X) (existsb (Nat.eqb (snd e)) X)) E.

Definition mem_edge (a b : nat) (E : list (nat * nat)) : bool :=
  existsb (fun e => (fst e =? a) && (snd e =? b)) E.

(** The heap once a task of class [k] is constructed and added with
    dependencies [D] and dependents [S]. *)
Definition push (h : Heap) (k : TaskKind) (D S : list Task) : Heap :=
  with_task_manager (bump h)
    (TaskManager.insert (task_manager h)
       {| task_id := next_id h; task_kind := k |} D S).

Section Invariant.

Variable self : UnloadCopyTool.

Abbreviation b1 := (barrier_after_all_cluster_pre_tests self).
Abbreviation b2 := (barrier_after_all_resource_pre_tests self).

(** The position of a task in the order the builder wires: cluster
    pre-tests, first barrier, resource pre-tests and creation, second
    barrier, unload, copy, cleanup. *)
Definition stage_rank (st : Stage) : nat :=
  match st with
  | Barrier | ClusterPreTest => 0
  | ResourcePreTest | Creation => 2
  | Unload => 4
  | Copy => 5
  | Cleanup => 6
  end.

Definition rank (t : Task) : nat :=
  if task_id t =? task_id b1 then 1
  else if task_id t =? task_id b2 then 3
  else stage_rank (stage t).

Definition hrank (tm : TaskManager.t) (h : nat) : nat :=
  match TaskManager.lookup tm h with
  | Some x => rank x
  | None => 0
  end.

Definition has_stage (tm : TaskManager.t) (h : nat) (st : Stage) : bool :=
  match TaskManager.lookup tm h with
  | Some x => stage_eqb (stage x) st
  | None => false
  end.

(** The edges a task of each stage is given when it is added. *)
Definition wiredb (tm : TaskManager.t) (t : Task) : bool :=
  let E := TaskManager.edges tm in
  match stage t with
  | Barrier => true
  | ClusterPreTest => mem_edge (task_id t) (task_id b1) E
  | ResourcePreTest | Creation =>
      mem_edge (task_id b1) (task_id t) E && mem_edge (task_id t) (task_id b2) E
  | Unload => mem_edge (task_id b2) (task_id t) E
  | Copy => existsb (fun e => (snd e =? task_id t) && has_stage tm (fst e) Unload) E
  | Cleanup => existsb (fun e => (snd e =? task_id t) && has_stage tm (fst e) Copy) E
  end.

Definition edge_okb (tm : TaskManager.t) (e : nat * nat) : bool :=
  TaskManager.known tm (fst e) && TaskManager.known tm (snd e)
  && (hrank tm (fst e) <? hrank tm (snd e)).

(** The two barriers come first and are the only barriers. *)
Definition layoutb (tm : TaskManager.t) : bool :=
  match TaskManager.tasks tm with
  | x :: y :: rest =>
      (task_id x =? task_id b1) && (task_id y =? task_id b2)
      && stage_eqb (stage x) Barrier && stage_eqb (stage y) Barrier
      && forallb (fun t => negb (stage_eqb (stage t) Barrier)) rest
  | _ => false
  end.

(** The invariant of the graph while pipelines are added; [n] bounds the
    handles in use. *)
Definition invb (tm : TaskManager.t) (n : nat) : bool :=
  layoutb tm
  && stage_eqb (stage b1) Barrier && stage_eqb (stage b2) Barrier
  && negb (task_id b1 =? task_id b2)
  && forallb (fun t => task_id t <? n) (TaskManager.tasks tm)
  && forallb (edge_okb tm) (TaskManager.edges tm)
  && forallb (wiredb tm) (TaskManager.tasks tm).

Definition wfb (h : Heap) : bool := invb (task_manager h) (next_id h).

(** A heap in which [self] can add a pipeline: what [__init__] has set up
    before it calls a builder method, and what each of them maintains. *)
Definition WF (h : Heap) : Prop := wfb h = true.

(** The invariant, read as propositions. *)
Record Inv (tm : TaskManager.t) (n : nat) : Prop := {
  inv_layout : exists rest, TaskManager.tasks tm = b1 :: b2 :: rest
                            /\ Forall (fun t => stage t <> Barrier) rest;
  inv_b1 : task_kind b1 = NoOperationTask;
  inv_b2 : task_kind b2 = NoOperationTask;
  inv_distinct : task_id b1 <> task_id b2;
  inv_ids : Forall (fun t => task_id t < n) (TaskManager.tasks tm);
  inv_edges : Forall (fun e => edge_okb tm e = true) (TaskManager.edges tm);
  inv_wired : Forall (fun t => wiredb tm t = true) (TaskManager.tasks tm)
}.

(** What the builder has to know of a task and of the tasks it names when
    it adds it: the tasks named are in the graph, dependencies rank lower
    and dependents higher, and the edges are those of the task's stage. *)
Definition admissible (tm : TaskManager.t) (t : Task) (D S : list Task) : Prop :=
  stage t <> Barrier
  /\ (forall d, In d D ->
        exists x, TaskManager.lookup tm (task_id d) = Some x /\ rank x < rank t)
  /\ (forall s, In s S ->
        exists x, TaskManager.lookup tm (task_id s) = Some x /\ rank t < rank x)
  /\ wiredb (TaskManager.insert tm t D S) t = true.

(** The destination [add_table_migration] works with once it has looked at
    [explicit_ids] in [config['copyTarget']]. *)
Definition effective_destination (destination : Resource) : Resource :=
  match explicit_ids (copyTarget (config (config_helper self))) with
  | Some true => set_explicit_ids destination true
  | _ => destination
  end.

(** The staging area the three transfer tasks of one pipeline share. *)
Definition staging (source : Resource) : S3Details :=
  {| s3_config := config (config_helper self); s3_source := source;
     encryption_key_id := encryptionKeyID |}.

(** What one call [add_table_migration source destination g] has done
    between the heaps [h] and [h']: the tasks [new] and the edges [newE]
    are appended, among them the transfer tasks [u], [c] and [k]. *)
Definition table_migration_added (source destination : Resource)
    (g : GlobalConfigValues) (h h' : Heap)
    (new : list Task) (newE : list (nat * nat)) (u c k : Task) : Prop :=
  let d := effective_destination destination in
  TaskManager.tasks (task_manager h') = TaskManager.tasks (task_manager h) ++ new
  /\ TaskManager.edges (task_manager h') = TaskManager.edges (task_manager h) ++ newE
  /\ trace h' = trace h ++ [Enter_add_table_migration source destination]
  /\ next_id h' = next_id h + List.length new
  /\ config_parameters h' = config_parameters h
  /\ at_stage Unload new = [u]
  /\ at_stage Copy new = [c]
  /\ at_stage Cleanup new = [k]
  /\ at_stage Barrier new = []
  /\ task_kind u = UnloadDataToS3Task source (staging source)
  /\ task_kind c = CopyDataFromS3Task d (staging source)
  /\ task_kind k = CleanupS3StagingAreaTask (staging source)
  /\ In (task_id b2, task_id u) newE
  /\ In (task_id u, task_id c) newE
  /\ In (task_id c, task_id k) newE
  /\ map task_kind (at_stage ClusterPreTest new)
     = (if connectionPreTest g && negb (destinationTablePreTest g)
        then [FailIfResourceClusterDoesNotExistsTask d] else [])
       ++ (if connectionPreTest g && negb (sourceTablePreTest g)
           then [FailIfResourceClusterDoesNotExistsTask source] else [])
       ++ (if destinationTablePreTest g && destinationTableAutoCreate g
           then [FailIfResourceClusterDoesNotExistsTask d] else [])
  /\ map task_kind (at_stage ResourcePreTest new)
     = (if destinationTablePreTest g && negb (destinationTableAutoCreate g)
        then [FailIfResourceDoesNotExistsTask d] else [])
       ++ (if sourceTablePreTest g
           then [FailIfResourceDoesNotExistsTask source] else [])
  /\ map task_kind (at_stage Creation new)
     = (if destinationTableAutoCreate g
        then [CreateIfTargetDoesNotExistTask source d] else []).

(** What the loop of [add_schema_migration] over [tables] has done between
    [h] and [h']: [calls] are the arguments of its calls of
    [add_table_migration], in order. *)
Definition pipelines_added (env : Env) (source destination : Resource)
    (tables : list string) (h h' : Heap)
    (new : list Task) (newE : list (nat * nat))
    (calls : list (Resource * Resource)) : Prop :=
  TaskManager.tasks (task_manager h') = TaskManager.tasks (task_manager h) ++ new
  /\ TaskManager.edges (task_manager h') = TaskManager.edges (task_manager h) ++ newE
  /\ trace h' = trace h ++ map enter_table calls
  /\ next_id h <= next_id h'
  /\ config_parameters h' = config_parameters h
  /\ map (fun c => table (fst c)) calls = tables
  /\ Forall (fun c =>
        fst c = new_TableResource (cluster (fst c)) (get_schema source) (table (fst c))
        /\ cluster_dict (cluster (fst c)) = unloadSource (config (config_helper self))
        /\ cluster_region (cluster (fst c)) = region self
        /\ snd c = set_cluster
                     (get_table_resource_from_merging_2_resources env destination (fst c))
                     (cluster (snd c))
        /\ cluster_dict (cluster (snd c)) = copyTarget (config (config_helper self))
        /\ cluster_region (cluster (snd c)) = region self) calls
  /\ NoDup (flat_map call_clusters calls)
  /\ Forall (fun i => next_id h <= i < next_id h') (flat_map call_clusters calls)
  /\ map task_kind (at_stage Unload new)
     = map (fun c => UnloadDataToS3Task (fst c) (staging (fst c))) calls
  /\ map task_kind (at_stage Copy new)
     = map (fun c => CopyDataFromS3Task (effective_destination (snd c)) (staging (fst c)))
         calls
  /\ map task_kind (at_stage Cleanup new)
     = map (fun c => CleanupS3StagingAreaTask (staging (fst c))) calls
  /\ at_stage Barrier new = [].

(** What any builder method has done between [h] and [h']: tasks, edges
    and events are appended, the executor is not invoked, no barrier is
    added, and each call of [add_table_migration] among the events has
    contributed one unload, one copy and one cleanup task. *)
Definition built (h h' : Heap)
    (new : list Task) (newE : list (nat * nat)) (evs : list Event) : Prop :=
  TaskManager.tasks (task_manager h') = TaskManager.tasks (task_manager h) ++ new
  /\ TaskManager.edges (task_manager h') = TaskManager.edges (task_manager h) ++ newE
  /\ trace h' = trace h ++ evs
  /\ next_id h <= next_id h'
  /\ config_parameters h' = config_parameters h
  /\ runs evs = []
  /\ map task_kind (at_stage Unload new)
     = map (fun c => UnloadDataToS3Task (fst c) (staging (fst c))) (table_calls evs)
  /\ map task_kind (at_stage Copy new)
     = map (fun c => CopyDataFromS3Task (effective_destination (snd c)) (staging (fst c)))
         (table_calls evs)
  /\ map task_kind (at_stage Cleanup new)
     = map (fun c => CleanupS3StagingAreaTask (staging (fst c))) (table_calls evs)
  /\ at_stage Barrier new = [].

End Invariant.

(** The combinations of resources [__init__] builds pipelines for: the
    source is a table, schema or database resource and the destination a
    database resource. *)
Definition supported (source destination : Resource) : bool :=
  (isinstance source TableResource || isinstance source SchemaResource
   || isinstance source DBResource)
  && isinstance destination DBResource.

(** What the constructor of [ConfigHelper] hands back; it leaves the heap
    alone. *)
Definition loaded (env : Env) (config_path : string) (s3_helper : option S3Helper)
  : Exception + ConfigHelper :=
  fst (ConfigHelper_init env config_path s3_helper empty_heap).

(** The object [__init__] builds on a heap whose next object is [n], once
    the configuration [ch] is loaded. *)
Definition self_of (ch : ConfigHelper) (region_name : string) (n : nat) : UnloadCopyTool :=
  {| region := region_name; s3_helper := {| s3_region := region_name |};
     config_helper := ch;
     barrier_after_all_cluster_pre_tests := {| task_id := n; task_kind := NoOperationTask |};
     barrier_after_all_resource_pre_tests :=
       {| task_id := S n; task_kind := NoOperationTask |} |}.

(** The heap of [__init__] once both barriers are added. *)
Definition after_barriers (h : Heap) (g : GlobalConfigValues) : Heap :=
  {| next_id := S (S (next_id h));
     task_manager :=
       {| TaskManager.tasks := [ {| task_id := next_id h; task_kind := NoOperationTask |};
                                 {| task_id := S (next_id h); task_kind := NoOperationTask |} ];
          TaskManager.edges := [] |};
     config_parameters := Some g;
     trace := trace h |}.

(** ** Configurations used as examples *)

Definition demo_dict (name : string) : ClusterDict :=
  {| payload := name; explicit_ids := None |}.

Definition demo_config : Config :=
  {| unloadSource := demo_dict "source"; copyTarget := demo_dict "target" |}.

Definition demo_cluster (name : string) (i : nat) : Cluster :=
  {| cluster_id := i; cluster_dict := demo_dict name; cluster_region := "eu-west-1" |}.

Definition demo_resource (c : ResourceClass) (name : string) (i : nat) : Resource :=
  {| class_of := c; cluster := demo_cluster name i; schema := "public";
     table := "orders"; explicit_ids_set := false |}.

(** A world whose source is of class [sc] and whose destination of class
    [dc]; the source database has the schemas [public], of two tables, and
    [audit], of one.  The file [missing.json] cannot be opened. *)
Definition demo_env (sc dc : ResourceClass) : Env :=
  {| open_json := fun p =>
       if String.eqb p "missing.json" then inl (External "IOError") else inr demo_config;
     get_json_config_as_dict := fun _ _ => inr demo_config;
     get_source_resource_from_config_helper := fun _ _ => demo_resource sc "source" 100;
     get_target_resource_from_config_helper := fun _ _ => demo_resource dc "target" 101;
     get_table_resource_from_merging_2_resources := fun a b =>
       new_TableResource (cluster a) (schema b) (table b);
     list_schemas := fun _ => ["public"; "audit"];
     list_tables := fun r =>
       if String.eqb (schema r) "public" then ["orders"; "customers"] else ["events"] |}.

Definition demo_flags (cp dp sp ac : bool) : GlobalConfigValues :=
  {| tableName := None; connectionPreTest := cp; destinationTablePreTest := dp;
     sourceTablePreTest := sp; destinationTableAutoCreate := ac |}.

(** The object and the heap of a run of [__init__] in the demo world, just
    before the first pipeline is added. *)
Definition demo_self : UnloadCopyTool :=
  self_of {| ch_s3_helper := Some {| s3_region := "eu-west-1" |}; config := demo_config |}
    "eu-west-1" 0.

Definition demo_heap (g : GlobalConfigValues) : Heap := after_barriers empty_heap g.

(* ===================================================================== *)
(** ** The shape of the graph *)
(* ===================================================================== *)

(** The number of edges a task of each stage is added with: the tasks it
    names as dependencies and as dependents. *)
Definition degree (st : Stage) : nat :=
  match st with
  | Barrier => 0
  | ClusterPreTest => 1
  | ResourcePreTest | Creation => 2
  | Unload | Copy | Cleanup => 1
  end.

Section Shape.

Variable self : UnloadCopyTool.

Abbreviation b1 := (barrier_after_all_cluster_pre_tests self).
Abbreviation b2 := (barrier_after_all_resource_pre_tests self).

(** The six kinds of edges [add_table_migration] adds, one per keyword
    argument of its calls of [add_task]: a cluster check is a dependency of
    the first barrier; a resource check or creation task depends on the
    first barrier and is a dependency of the second; an unload task depends
    on the second barrier; a copy task depends on the unload task of its
    staging area, a cleanup task on the copy task of its staging area. *)
Inductive link : Task -> Task -> Prop :=
| link_cluster_barrier t r :
    task_kind t = FailIfResourceClusterDoesNotExistsTask r -> link t b1
| link_barrier_check t :
    stage t = ResourcePreTest \/ stage t = Creation -> link b1 t
| link_check_barrier t :
    stage t = ResourcePreTest \/ stage t = Creation -> link t b2
| link_barrier_unload t s s3 :
    task_kind t = UnloadDataToS3Task s s3 -> link b2 t
| link_unload_copy u c d s3 :
    task_kind u = UnloadDataToS3Task (s3_source s3) s3 ->
    task_kind c = CopyDataFromS3Task d s3 -> link u c
| link_copy_cleanup c k d s3 :
    task_kind c = CopyDataFromS3Task d s3 ->
    task_kind k = CleanupS3StagingAreaTask s3 -> link c k.

(** The handles of the graph are pairwise distinct, each task has brought
    the edges of its stage and no others, and every edge is one of the six
    kinds. *)
Definition shape (tm : TaskManager.t) : Prop :=
  NoDup (map task_id (TaskManager.tasks tm))
  /\ List.length (TaskManager.edges tm)
     = list_sum (map (fun t => degree (stage t)) (TaskManager.tasks tm))
  /\ Forall (fun e => exists x y,
               In x (TaskManager.tasks tm) /\ In y (TaskManager.tasks tm)
               /\ task_id x = fst e /\ task_id y = snd e /\ link x y)
       (TaskManager.edges tm).

(** A heap on which [self] can build and whose graph has that shape. *)
Definition good (h : Heap) : Prop := WF self h /\ shape (task_manager h).

End Shape.

(** Some task sits between the two barriers, unless the graph holds
    nothing but the barriers. *)
Definition linked_or_bare (self : UnloadCopyTool) (h : Heap) : Prop :=
  WF self h
  /\ (TaskManager.tasks (task_manager h)
      = [barrier_after_all_cluster_pre_tests self;
         barrier_after_all_resource_pre_tests self]
      \/ exists m, In m (TaskManager.tasks (task_manager h))
                   /\ (stage m = ResourcePreTest \/ stage m = Creation)).

(* ===================================================================== *)
(** ** The command line: [set_log_level] and [main] *)
(* ===================================================================== *)









(** The resources a task works on. *)
Definition resources_of (k : TaskKind) : list Resource :=
  match k with
  | NoOperationTask => []
  | FailIfResourceClusterDoesNotExistsTask r => [r]
  | FailIfResourceDoesNotExistsTask r => [r]
  | CreateIfTargetDoesNotExistTask s d => [s; d]
  | UnloadDataToS3Task s s3 => [s; s3_source s3]
  | CopyDataFromS3Task d s3 => [d; s3_source s3]
  | CleanupS3StagingAreaTask s3 => [s3_source s3]
  end.

(* ===================================================================== *)
(** ** Facts about the task graph *)
(* ===================================================================== *)

Module TaskManagerFacts.
Import TaskManager.

Lemma lookup_some tm h x :
  lookup tm h = Some x -> In x (tasks tm) /\ task_id x = h.
Proof.
  unfold lookup. intros H. apply find_some in H as [Hin Heq].
  split; [assumption | now apply Nat.eqb_eq].
Qed.

Lemma known_lookup tm h : known tm h = true -> exists x, lookup tm h = Some x.
Proof. unfold known. destruct (lookup tm h) as [x|]; [eauto | discriminate]. Qed.

Lemma lookup_known tm h x : lookup tm h = Some x -> known tm h = true.
Proof. unfold known. now intros ->. Qed.

Lemma find_app_l {A} (f : A -> bool) l l' x :
  find f l = Some x -> find f (l ++ l') = Some x.
Proof.
  induction l as [|a l IH]; simpl; [discriminate|].
  destruct (f a); auto.
Qed.

Lemma find_app_r {A} (f : A -> bool) l l' :
  Forall (fun a => f a = false) l -> find f (l ++ l') = find f l'.
Proof.
  induction 1 as [|a l Ha _ IH]; simpl; [reflexivity|].
  now rewrite Ha.
Qed.

(** An older handle still denotes the same task after an insertion. *)
Lemma lookup_insert_old tm t D S h x :
  lookup tm h = Some x -> lookup (insert tm t D S) h = Some x.
Proof. unfold lookup, insert. simpl. apply find_app_l. Qed.

(** The handle of the inserted task denotes it when no older task has it. *)
Lemma lookup_insert_new tm t D S :
  Forall (fun x => task_id x < task_id t) (tasks tm) ->
  lookup (insert tm t D S) (task_id t) = Some t.
Proof.
  intros H. unfold lookup, insert. simpl.
  rewrite find_app_r.
  - simpl. now rewrite Nat.eqb_refl.
  - eapply Forall_impl; [|exact H]. simpl. intros a Ha.
    apply Nat.eqb_neq. lia.
Qed.

(** Soundness of the bounded search with respect to a ranking of the
    handles that every edge increases. *)
Lemma reachb_rank (r : nat -> nat) E :
  Forall (fun e => r (fst e) < r (snd e)) E ->
  forall n a b, reachb E n a b = true -> r a < r b.
Proof.
  intros HE. induction n as [|n IH]; simpl; intros a b H; [discriminate|].
  apply existsb_exists in H as [e [Hin He]].
  rewrite Forall_forall in HE. specialize (HE e Hin).
  destruct (Nat.eqb_spec (fst e) a) as [<-|]; [|discriminate].
  destruct (Nat.eqb_spec (snd e) b) as [<-|]; [assumption|].
  apply IH in He. lia.
Qed.

Lemma ranked_acyclic (r : nat -> nat) E :
  Forall (fun e => r (fst e) < r (snd e)) E -> acyclicb E = true.
Proof.
  intros HE. unfold acyclicb. apply forallb_forall. intros e _.
  destruct (reachb E (List.length E) (fst e) (fst e)) eqn:Hr; [|reflexivity].
  apply (reachb_rank r E HE) in Hr. lia.
Qed.

Lemma precedes_trans tm a b c :
  precedes tm a b -> precedes tm b c -> precedes tm a c.
Proof.
  induction 1 as [a b H|a b b' H _ IH]; intros Hc.
  - eapply precedes_step; eassumption.
  - eapply precedes_step; [eassumption | auto].
Qed.

Lemma precedes_closed tm X a b :
  closedb (edges tm) X = true ->
  precedes tm a b -> existsb (Nat.eqb a) X = true -> existsb (Nat.eqb b) X = true.
Proof.
  intros HX. unfold closedb in HX. rewrite forallb_forall in HX.
  induction 1 as [a b H|a b c H _ IH]; intros Ha.
  - specialize (HX _ H). simpl in HX. rewrite Ha in HX. exact HX.
  - apply IH. specialize (HX _ H). simpl in HX. rewrite Ha in HX. exact HX.
Qed.

End TaskManagerFacts.

(* ===================================================================== *)
(** ** The invariant is kept by every insertion the builder makes *)
(* ===================================================================== *)

Lemma stage_eqb_eq a b : stage_eqb a b = true <-> a = b.
Proof. destruct a, b; simpl; split; intros H; try reflexivity; discriminate. Qed.

Lemma stage_barrier t : stage t = Barrier <-> task_kind t = NoOperationTask.
Proof. unfold stage. destruct (task_kind t); simpl; split; intros H; try reflexivity; discriminate. Qed.

Lemma task_ext (x y : Task) :
  task_id x = task_id y -> task_kind x = task_kind y -> x = y.
Proof. destruct x, y; simpl; intros -> ->; reflexivity. Qed.

Lemma mem_edge_in a b E : mem_edge a b E = true <-> In (a, b) E.
Proof.
  unfold mem_edge. rewrite existsb_exists. split.
  - intros [[x y] [Hin H]]. simpl in H. apply andb_true_iff in H as [Hx Hy].
    apply Nat.eqb_eq in Hx, Hy. now subst.
  - intros H. exists (a, b). simpl. now rewrite !Nat.eqb_refl.
Qed.

Section InvariantFacts.

Import TaskManager TaskManagerFacts.

Variable self : UnloadCopyTool.

Abbreviation b1 := (barrier_after_all_cluster_pre_tests self).
Abbreviation b2 := (barrier_after_all_resource_pre_tests self).

Lemma invb_Inv tm n : invb self tm n = true <-> Inv self tm n.
Proof.
  unfold invb. rewrite !andb_true_iff, !forallb_forall, negb_true_iff,
    Nat.eqb_neq, !stage_eqb_eq, !stage_barrier.
  split.
  - intros [[[[[[Hl Hb1] Hb2] Hd] Hi] He] Hw].
    constructor; try assumption; try (apply Forall_forall; assumption).
    + unfold layoutb in Hl.
      destruct (tasks tm) as [|x [|y rest]]; try discriminate.
      rewrite !andb_true_iff, !Nat.eqb_eq, !stage_eqb_eq, !stage_barrier,
        forallb_forall in Hl.
      destruct Hl as [[[[Hx Hy] Hkx] Hky] Hrest].
      exists rest. split.
      * f_equal; [|f_equal]; apply task_ext; congruence.
      * apply Forall_forall. intros t Ht Hs. specialize (Hrest t Ht).
        apply negb_true_iff in Hrest. apply stage_eqb_eq in Hs. congruence.
    + apply Forall_forall. intros t Ht. apply Nat.ltb_lt. auto.
  - intros [[rest [Hl Hrest]] Hb1 Hb2 Hd Hi He Hw].
    rewrite Forall_forall in Hi, He, Hw, Hrest.
    repeat split; try assumption.
    + unfold layoutb. rewrite Hl.
      rewrite !andb_true_iff, !Nat.eqb_eq, !stage_eqb_eq, !stage_barrier,
        forallb_forall.
      repeat split; try assumption; try reflexivity.
      intros t Ht. apply negb_true_iff.
      destruct (stage_eqb (stage t) Barrier) eqn:E; [|reflexivity].
      apply stage_eqb_eq in E. exfalso. exact (Hrest t Ht E).
    + intros t Ht. apply Nat.ltb_lt. auto.
Qed.

Lemma Inv_b1_in tm n : Inv self tm n -> In b1 (tasks tm).
Proof. intros [[rest [Hl _]] _ _ _ _ _ _]. rewrite Hl. simpl. auto. Qed.

Lemma Inv_b2_in tm n : Inv self tm n -> In b2 (tasks tm).
Proof. intros [[rest [Hl _]] _ _ _ _ _ _]. rewrite Hl. simpl. auto. Qed.

Lemma Inv_lookup_b1 tm n : Inv self tm n -> lookup tm (task_id b1) = Some b1.
Proof.
  intros [[rest [Hl _]] _ _ _ _ _ _]. unfold lookup. rewrite Hl. simpl.
  now rewrite Nat.eqb_refl.
Qed.

Lemma Inv_lookup_b2 tm n : Inv self tm n -> lookup tm (task_id b2) = Some b2.
Proof.
  intros [[rest [Hl _]] _ _ Hd _ _ _]. unfold lookup. rewrite Hl. simpl.
  apply Nat.eqb_neq in Hd. rewrite Hd. now rewrite Nat.eqb_refl.
Qed.

Lemma rank_b1 : rank self b1 = 1.
Proof. unfold rank. now rewrite Nat.eqb_refl. Qed.

Lemma rank_b2 tm n : Inv self tm n -> rank self b2 = 3.
Proof.
  intros H. unfold rank. destruct (Nat.eqb_spec (task_id b2) (task_id b1)) as [E|_].
  - exfalso. apply (inv_distinct _ _ _ H). congruence.
  - now rewrite Nat.eqb_refl.
Qed.

(** A task that is neither barrier is ranked by its stage. *)
Lemma rank_other t :
  task_id t <> task_id b1 -> task_id t <> task_id b2 ->
  rank self t = stage_rank (stage t).
Proof.
  intros H1 H2. unfold rank.
  apply Nat.eqb_neq in H1, H2. rewrite H1, H2. reflexivity.
Qed.

Lemma rank_new tm t :
  Inv self tm (task_id t) -> rank self t = stage_rank (stage t).
Proof.
  intros H. pose proof (inv_ids _ _ _ H) as Hi. rewrite Forall_forall in Hi.
  pose proof (Hi _ (Inv_b1_in _ _ H)). pose proof (Hi _ (Inv_b2_in _ _ H)).
  apply rank_other; lia.
Qed.

Lemma rank_known tm n x :
  Inv self tm n -> lookup tm (task_id x) = Some x -> stage x <> Barrier ->
  rank self x = stage_rank (stage x).
Proof.
  intros H Hx Hs. apply rank_other; intros E.
  - rewrite E, (Inv_lookup_b1 _ _ H) in Hx. injection Hx as <-.
    apply Hs, stage_barrier, (inv_b1 _ _ _ H).
  - rewrite E, (Inv_lookup_b2 _ _ H) in Hx. injection Hx as <-.
    apply Hs, stage_barrier, (inv_b2 _ _ _ H).
Qed.

Lemma has_stage_insert tm t D S h st :
  has_stage tm h st = true -> has_stage (insert tm t D S) h st = true.
Proof.
  unfold has_stage. destruct (lookup tm h) as [x|] eqn:E; [|discriminate].
  now rewrite (lookup_insert_old _ t D S _ _ E).
Qed.

Lemma hrank_insert tm t D S h x :
  lookup tm h = Some x -> hrank self (insert tm t D S) h = rank self x.
Proof. intros E. unfold hrank. now rewrite (lookup_insert_old _ t D S _ _ E). Qed.

Lemma edge_okb_insert tm t D S e :
  edge_okb self tm e = true -> edge_okb self (insert tm t D S) e = true.
Proof.
  unfold edge_okb. rewrite !andb_true_iff. intros [[Ha Hb] Hr].
  apply known_lookup in Ha as [x Hx], Hb as [y Hy].
  rewrite (lookup_known _ _ _ (lookup_insert_old _ t D S _ _ Hx)).
  rewrite (lookup_known _ _ _ (lookup_insert_old _ t D S _ _ Hy)).
  rewrite (hrank_insert _ t D S _ _ Hx), (hrank_insert _ t D S _ _ Hy).
  unfold hrank in Hr. rewrite Hx, Hy in Hr. auto.
Qed.

Lemma existsb_app_l {A} (f : A -> bool) l l' :
  existsb f l = true -> existsb f (l ++ l') = true.
Proof. intros H. rewrite existsb_app, H. reflexivity. Qed.

Lemma existsb_impl {A} (f g : A -> bool) l :
  (forall a, f a = true -> g a = true) -> existsb f l = true -> existsb g l = true.
Proof.
  intros Hfg H. apply existsb_exists in H as [a [Hin Ha]].
  apply existsb_exists. eauto.
Qed.

Lemma wiredb_insert tm t D S x :
  wiredb self tm x = true -> wiredb self (insert tm t D S) x = true.
Proof.
  unfold wiredb, mem_edge. simpl edges.
  destruct (stage x); try reflexivity;
    rewrite ?andb_true_iff; intros H;
    repeat match goal with H : _ /\ _ |- _ => destruct H end;
    repeat split; try (apply existsb_app_l; assumption).
  - apply existsb_app_l. revert H. apply existsb_impl. intros e.
    rewrite !andb_true_iff. intros [? ?]. split; [assumption|].
    now apply has_stage_insert.
  - apply existsb_app_l. revert H. apply existsb_impl. intros e.
    rewrite !andb_true_iff. intros [? ?]. split; [assumption|].
    now apply has_stage_insert.
Qed.

Lemma Inv_insert tm t D S :
  Inv self tm (task_id t) -> admissible self tm t D S ->
  add tm t D S = inr (insert tm t D S)
  /\ Inv self (insert tm t D S) (Datatypes.S (task_id t))
  /\ lookup (insert tm t D S) (task_id t) = Some t.
Proof.
  intros H (Hst & HD & HS & Hw).
  assert (Hnew : lookup (insert tm t D S) (task_id t) = Some t)
    by (apply lookup_insert_new, (inv_ids _ _ _ H)).
  assert (HI : Inv self (insert tm t D S) (Datatypes.S (task_id t))).
  { destruct H as [[rest [Hl Hrest]] Hb1 Hb2 Hd Hi He Hwd].
    constructor; try assumption.
    - exists (rest ++ [t]). simpl. rewrite Hl. split; [reflexivity|].
      apply Forall_app. split; [assumption|]. constructor; [assumption|constructor].
    - simpl. apply Forall_app. split.
      + eapply Forall_impl; [|exact Hi]. simpl. intros; lia.
      + constructor; [lia|constructor].
    - simpl edges. rewrite !Forall_app. repeat split.
      + eapply Forall_impl; [|exact He]. intros e. apply edge_okb_insert.
      + apply Forall_forall. intros e He'. apply in_map_iff in He' as [d [<- Hd']].
        destruct (HD d Hd') as [x [Hx Hr]].
        unfold edge_okb. simpl fst. simpl snd.
        rewrite (lookup_known _ _ _ (lookup_insert_old _ t D S _ _ Hx)).
        rewrite (lookup_known _ _ _ Hnew), (hrank_insert _ t D S _ _ Hx).
        unfold hrank at 1. rewrite Hnew. simpl. now apply Nat.ltb_lt.
      + apply Forall_forall. intros e He'. apply in_map_iff in He' as [s [<- Hs']].
        destruct (HS s Hs') as [x [Hx Hr]].
        unfold edge_okb. simpl fst. simpl snd.
        rewrite (lookup_known _ _ _ (lookup_insert_old _ t D S _ _ Hx)).
        rewrite (lookup_known _ _ _ Hnew), (hrank_insert _ t D S _ _ Hx).
        unfold hrank at 1. rewrite Hnew. simpl. now apply Nat.ltb_lt.
    - simpl tasks. apply Forall_app. split.
      + eapply Forall_impl; [|exact Hwd]. intros x. apply wiredb_insert.
      + constructor; [assumption|constructor]. }
  split; [|split; assumption].
  unfold add.
  replace (forallb (fun x => known tm (task_id x)) (D ++ S)) with true.
  - simpl. rewrite (ranked_acyclic (hrank self (insert tm t D S)) _); [reflexivity|].
    eapply Forall_impl; [|exact (inv_edges _ _ _ HI)]. intros e He.
    unfold edge_okb in He. rewrite !andb_true_iff in He.
    apply Nat.ltb_lt. apply He.
  - symmetry. apply forallb_forall. intros x Hx. apply in_app_or in Hx as [Hx|Hx].
    + destruct (HD x Hx) as [y [Hy _]]. eapply lookup_known; eassumption.
    + destruct (HS x Hx) as [y [Hy _]]. eapply lookup_known; eassumption.
Qed.

End InvariantFacts.

(* ===================================================================== *)
(** ** Running the builder step by step *)
(* ===================================================================== *)

Lemma bind_assoc {A B C} (m : M A) (f : A -> M B) (g : B -> M C) h :
  bind (bind m f) g h = bind m (fun a => bind (f a) g) h.
Proof. unfold bind. destruct (m h) as [[e|a] h']; reflexivity. Qed.

Lemma bind_ret {A B} (a : A) (f : A -> M B) h : bind (ret a) f h = f a h.
Proof. reflexivity. Qed.

Lemma bind_emit {A} (e : Event) (f : unit -> M A) h :
  bind (emit e) f h = f tt (logged h e).
Proof. reflexivity. Qed.

Lemma bind_new_task {A} k (f : Task -> M A) h :
  bind (new_task k) f h = f {| task_id := next_id h; task_kind := k |} (bump h).
Proof. reflexivity. Qed.

Lemma new_task_run k h :
  new_task k h = (inr {| task_id := next_id h; task_kind := k |}, bump h).
Proof. reflexivity. Qed.

Section Steps.

Import TaskManager TaskManagerFacts.

Variable self : UnloadCopyTool.

Abbreviation b1 := (barrier_after_all_cluster_pre_tests self).
Abbreviation b2 := (barrier_after_all_resource_pre_tests self).

Lemma WF_Inv h : WF self h <-> Inv self (task_manager h) (next_id h).
Proof. apply invb_Inv. Qed.

Lemma WF_logged h e : WF self h -> WF self (logged h e).
Proof. intros H. exact H. Qed.

(** Constructing a task and adding it, when the call is admissible. *)
Lemma add_task_run k D S h :
  WF self h ->
  admissible self (task_manager h) {| task_id := next_id h; task_kind := k |} D S ->
  add_task {| task_id := next_id h; task_kind := k |} D S (bump h) = (inr tt, push h k D S).
Proof.
  intros H Ha. apply WF_Inv in H.
  destruct (Inv_insert self (task_manager h) {| task_id := next_id h; task_kind := k |} D S H Ha)
    as [Hadd _].
  unfold add_task. simpl task_manager. rewrite Hadd. reflexivity.
Qed.

Lemma bind_add_task {A} k D S (f : unit -> M A) h :
  WF self h ->
  admissible self (task_manager h) {| task_id := next_id h; task_kind := k |} D S ->
  bind (add_task {| task_id := next_id h; task_kind := k |} D S) f (bump h)
  = f tt (push h k D S).
Proof. intros H Ha. unfold bind. now rewrite add_task_run. Qed.

Lemma WF_push k D S h :
  WF self h ->
  admissible self (task_manager h) {| task_id := next_id h; task_kind := k |} D S ->
  WF self (push h k D S)
  /\ lookup (task_manager (push h k D S)) (next_id h)
     = Some {| task_id := next_id h; task_kind := k |}.
Proof.
  intros H Ha. apply WF_Inv in H.
  destruct (Inv_insert self (task_manager h) {| task_id := next_id h; task_kind := k |} D S H Ha)
    as (_ & HI & Hl).
  split; [apply WF_Inv; exact HI | exact Hl].
Qed.

(** The five ways the builder wires a task are admissible. *)

Lemma rank_cand h k :
  WF self h ->
  rank self {| task_id := next_id h; task_kind := k |} = stage_rank (stage_of k).
Proof.
  intros H. apply WF_Inv in H.
  apply (rank_new self (task_manager h) {| task_id := next_id h; task_kind := k |} H).
Qed.

Lemma adm_cluster_pre_test h r :
  WF self h ->
  admissible self (task_manager h)
    {| task_id := next_id h; task_kind := FailIfResourceClusterDoesNotExistsTask r |}
    [] [b1].
Proof.
  intros H. pose proof (rank_cand h (FailIfResourceClusterDoesNotExistsTask r) H) as Hr.
  apply WF_Inv in H. repeat split.
  - discriminate.
  - intros d [].
  - intros s [<-|[]]. exists b1. split; [apply (Inv_lookup_b1 self _ _ H)|].
    rewrite Hr, rank_b1. simpl. lia.
  - unfold wiredb. cbn. apply mem_edge_in, in_or_app. right. simpl. auto.
Qed.

Lemma adm_between h k :
  WF self h ->
  stage_of k = ResourcePreTest \/ stage_of k = Creation ->
  admissible self (task_manager h)
    {| task_id := next_id h; task_kind := k |} [b1] [b2].
Proof.
  intros H Hk. pose proof (rank_cand h k H) as Hr.
  apply WF_Inv in H. repeat split.
  - unfold stage. simpl. destruct Hk as [-> | ->]; discriminate.
  - intros d [<-|[]]. exists b1. split; [apply (Inv_lookup_b1 self _ _ H)|].
    rewrite Hr, rank_b1. destruct Hk as [-> | ->]; simpl; lia.
  - intros s [<-|[]]. exists b2. split; [apply (Inv_lookup_b2 self _ _ H)|].
    rewrite Hr, (rank_b2 self _ _ H). destruct Hk as [-> | ->]; simpl; lia.
  - unfold wiredb, stage. cbn [task_kind task_id insert edges map app].
    assert (mem_edge (task_id b1) (next_id h)
              (edges (task_manager h) ++ [(task_id b1, next_id h); (next_id h, task_id b2)])
            && mem_edge (next_id h) (task_id b2)
              (edges (task_manager h) ++ [(task_id b1, next_id h); (next_id h, task_id b2)])
            = true) as Hm.
    { apply andb_true_iff. split; apply mem_edge_in, in_or_app; right; simpl; auto. }
    destruct Hk as [-> | ->]; exact Hm.
Qed.

Lemma adm_unload h s d :
  WF self h ->
  admissible self (task_manager h)
    {| task_id := next_id h; task_kind := UnloadDataToS3Task s d |} [b2] [].
Proof.
  intros H. pose proof (rank_cand h (UnloadDataToS3Task s d) H) as Hr.
  apply WF_Inv in H. repeat split.
  - discriminate.
  - intros x [<-|[]]. exists b2. split; [apply (Inv_lookup_b2 self _ _ H)|].
    rewrite Hr, (rank_b2 self _ _ H). simpl. lia.
  - intros x [].
  - unfold wiredb. cbn. apply mem_edge_in, in_or_app. right. simpl. auto.
Qed.

(** A task of stage [st'] that depends on a task [u] of the stage [st]
    before it. *)
Lemma adm_after h k u :
  WF self h ->
  lookup (task_manager h) (task_id u) = Some u ->
  (stage u = Unload /\ stage_of k = Copy) \/ (stage u = Copy /\ stage_of k = Cleanup) ->
  admissible self (task_manager h) {| task_id := next_id h; task_kind := k |} [u] [].
Proof.
  intros H Hu Hk. pose proof (rank_cand h k H) as Hr.
  apply WF_Inv in H.
  assert (Hru : rank self u = stage_rank (stage u)).
  { apply (rank_known self _ _ u H Hu). destruct Hk as [[-> _]|[-> _]]; discriminate. }
  repeat split.
  - unfold stage. simpl. destruct Hk as [[_ ->]|[_ ->]]; discriminate.
  - intros x [<-|[]]. exists u. split; [assumption|].
    rewrite Hr, Hru. destruct Hk as [[-> ->]|[-> ->]]; simpl; lia.
  - intros x [].
  - unfold wiredb, stage. cbn [task_kind task_id insert edges map app].
    assert (forall st, stage u = st ->
              existsb (fun e => (snd e =? next_id h)
                                && has_stage
                                     (insert (task_manager h)
                                        {| task_id := next_id h; task_kind := k |} [u] [])
                                     (fst e) st)
                (edges (task_manager h) ++ [(task_id u, next_id h)]) = true) as Hm.
    { intros st Hst. rewrite existsb_app. apply orb_true_iff. right. simpl.
      rewrite Nat.eqb_refl. simpl.
      rewrite (has_stage_insert (task_manager h) _ [u] [] (task_id u) st);
        [reflexivity|].
      unfold has_stage. rewrite Hu. apply stage_eqb_eq. assumption. }
    destruct Hk as [[Hs ->]|[Hs ->]]; apply Hm; assumption.
Qed.

End Steps.

(* ===================================================================== *)
(** ** One call of [add_table_migration] *)
(* ===================================================================== *)

Ltac adm_solve :=
  first
    [ apply adm_cluster_pre_test; assumption
    | apply adm_between; [assumption | simpl; auto]
    | apply adm_unload; assumption
    | apply adm_after; [assumption | assumption | simpl; auto] ].

(** One statement of the builder, run on a heap that is known to be well
    formed. *)
Ltac exec_step self :=
  first
    [ rewrite bind_assoc
    | rewrite bind_ret
    | rewrite bind_emit
    | rewrite bind_new_task; cbv beta
    | match goal with
      | HW : WF self ?h
        |- context [bind (add_task {| task_id := next_id ?h; task_kind := ?k |} ?D ?S) ?f (bump ?h)] =>
          let Ha := fresh "Ha" in
          let HW' := fresh "HW" in
          let Hl := fresh "Hl" in
          assert (Ha : admissible self (task_manager h)
                         {| task_id := next_id h; task_kind := k |} D S) by adm_solve;
          rewrite (bind_add_task self k D S f h HW Ha);
          destruct (WF_push self k D S h HW Ha) as [HW' Hl];
          clear Ha
      | HW : WF self ?h
        |- context [add_task {| task_id := next_id ?h; task_kind := ?k |} ?D ?S (bump ?h)] =>
          let Ha := fresh "Ha" in
          let HW' := fresh "HW" in
          let Hl := fresh "Hl" in
          assert (Ha : admissible self (task_manager h)
                         {| task_id := next_id h; task_kind := k |} D S) by adm_solve;
          rewrite (add_task_run self k D S h HW Ha);
          destruct (WF_push self k D S h HW Ha) as [HW' Hl];
          clear Ha
      end ].

Lemma add_table_migration_run self source destination g h :
  WF self h ->
  exists h' new newE u c k,
    add_table_migration self source destination g h = (inr tt, h')
    /\ WF self h'
    /\ table_migration_added self source destination g h h' new newE u c k.
Proof.
  intros HW.
  unfold table_migration_added, add_table_migration.
  fold (effective_destination self destination).
  fold (staging self source).
  set (d := effective_destination self destination).
  set (s3 := staging self source).
  apply (WF_logged self h (Enter_add_table_migration source destination)) in HW.
  destruct g as [tn cp dp sp ac].
  cbn [connectionPreTest destinationTablePreTest sourceTablePreTest
       destinationTableAutoCreate].
  destruct cp, dp, sp, ac; cbn [negb andb];
    repeat exec_step self.
  all: do 6 eexists; split; [reflexivity|]; split; [eassumption|].
  all: cbn [push bump logged with_task_manager TaskManager.insert TaskManager.tasks
            TaskManager.edges task_manager next_id trace config_parameters
            map app task_id].
  all: rewrite <- ?app_assoc; cbn [app].
  all: repeat (split; [first [reflexivity | cbn; lia | cbn; auto 10]|]).
  all: reflexivity.
Qed.

(* ===================================================================== *)
(** ** The loops of [add_schema_migration] and [add_database_migration] *)
(* ===================================================================== *)

Lemma bind_run {A B} (m : M A) (f : A -> M B) h a h1 :
  m h = (inr a, h1) -> bind m f h = f a h1.
Proof. unfold bind. now intros ->. Qed.

Lemma bind_fresh {A} (f : nat -> M A) h : bind fresh f h = f (next_id h) (bump h).
Proof. reflexivity. Qed.

Lemma bind_get_cluster {A} d r (f : Cluster -> M A) h :
  bind (get_cluster_from_cluster_dict d r) f h
  = f {| cluster_id := next_id h; cluster_dict := d; cluster_region := r |} (bump h).
Proof. reflexivity. Qed.

Lemma WF_bump self h : WF self h -> WF self (bump h).
Proof.
  rewrite !WF_Inv. intros [Hl Hb1 Hb2 Hd Hi He Hw].
  constructor; try assumption.
  simpl. eapply Forall_impl; [|exact Hi]. simpl. intros; lia.
Qed.

Lemma at_stage_app st l l' : at_stage st (l ++ l') = at_stage st l ++ at_stage st l'.
Proof. apply filter_app. Qed.

Lemma table_calls_app l l' : table_calls (l ++ l') = table_calls l ++ table_calls l'.
Proof. apply flat_map_app. Qed.

Lemma schema_calls_app l l' : schema_calls (l ++ l') = schema_calls l ++ schema_calls l'.
Proof. apply flat_map_app. Qed.

Lemma runs_app l l' : runs (l ++ l') = runs l ++ runs l'.
Proof. apply flat_map_app. Qed.

Lemma table_calls_enter calls : table_calls (map enter_table calls) = calls.
Proof.
  induction calls as [|[s d] l IH]; simpl; [reflexivity|]. now rewrite IH.
Qed.

Lemma schema_calls_enter calls : schema_calls (map enter_table calls) = [].
Proof. induction calls as [|[s d] l IH]; simpl; auto. Qed.

Lemma runs_enter calls : runs (map enter_table calls) = [].
Proof. induction calls as [|[s d] l IH]; simpl; auto. Qed.

Lemma tables_loop env self source destination g tables : forall h,
  WF self h ->
  exists h' new newE calls,
    for_each tables (fun table =>
      source_cluster <-
        get_cluster_from_cluster_dict
          (unloadSource (config (config_helper self))) (region self) ;;
      destination_cluster <-
        get_cluster_from_cluster_dict
          (copyTarget (config (config_helper self))) (region self) ;;
      add_table_migration self
        (new_TableResource source_cluster (get_schema source) table)
        (set_cluster
           (get_table_resource_from_merging_2_resources env destination
              (new_TableResource source_cluster (get_schema source) table))
           destination_cluster) g)%py h = (inr tt, h')
    /\ WF self h'
    /\ pipelines_added self env source destination tables h h' new newE calls.
Proof.
  induction tables as [|table tables IH]; intros h HW.
  - exists h, [], [], []. unfold pipelines_added. simpl.
    rewrite !app_nil_r. repeat split; auto; constructor.
  - simpl for_each.
    rewrite bind_assoc, bind_get_cluster, bind_assoc, bind_get_cluster. cbv beta.
    set (sc := {| cluster_id := next_id h;
                  cluster_dict := unloadSource (config (config_helper self));
                  cluster_region := region self |}).
    set (dc := {| cluster_id := next_id (bump h);
                  cluster_dict := copyTarget (config (config_helper self));
                  cluster_region := region self |}).
    set (st := new_TableResource sc (get_schema source) table).
    set (tt' := set_cluster
                  (get_table_resource_from_merging_2_resources env destination st) dc).
    destruct (add_table_migration_run self st tt' g (bump (bump h))
                (WF_bump self _ (WF_bump self _ HW)))
      as (h1 & new1 & newE1 & u & c & k & Hrun & HW1 & Hadd).
    rewrite (bind_run _ _ _ _ _ Hrun).
    destruct (IH h1 HW1) as (h2 & new2 & newE2 & calls & Hrun2 & HW2 & Hadd2).
    exists h2, (new1 ++ new2), (newE1 ++ newE2), ((st, tt') :: calls).
    split; [exact Hrun2|]. split; [exact HW2|].
    unfold table_migration_added in Hadd.
    destruct Hadd as (Ht & He & Htr & Hn & Hc & Hu & Hcp & Hk & Hb & Hku & Hkc & Hkk & _).
    destruct Hadd2 as (Ht2 & He2 & Htr2 & Hn2 & Hc2 & Htab & Hcalls & Hnd & Hids
                       & Hu2 & Hcp2 & Hk2 & Hb2).
    simpl in Ht, He, Htr, Hn, Hc.
    unfold pipelines_added.
    rewrite !at_stage_app, !map_app, Hu, Hcp, Hk, Hb, Hu2, Hcp2, Hk2, Hb2.
    simpl. rewrite Hku, Hkc, Hkk.
    repeat split.
    + rewrite Ht2, Ht. now rewrite app_assoc.
    + rewrite He2, He. now rewrite app_assoc.
    + rewrite Htr2, Htr. now rewrite <- app_assoc.
    + lia.
    + congruence.
    + now rewrite Htab.
    + constructor; [|assumption]. simpl. repeat split; reflexivity.
    + constructor.
      * simpl. intros [E|E]; [lia|].
        rewrite Forall_forall in Hids. apply Hids in E. lia.
      * constructor; [|assumption].
        intros E. rewrite Forall_forall in Hids. apply Hids in E. simpl in E. lia.
    + constructor; [simpl; lia|]. constructor; [simpl; lia|].
      eapply Forall_impl; [|exact Hids]. simpl. intros; lia.
Qed.

Lemma add_schema_migration_run env self source destination g h :
  WF self h ->
  exists h' new newE calls,
    add_schema_migration env self source destination g h = (inr tt, h')
    /\ WF self h'
    /\ pipelines_added self env source destination (list_tables env source)
         (logged h (Enter_add_schema_migration source destination)) h' new newE calls.
Proof.
  intros HW. unfold add_schema_migration. rewrite bind_emit.
  apply tables_loop. apply WF_logged. exact HW.
Qed.

Lemma built_table self source destination g h h' new newE u c k :
  table_migration_added self source destination g h h' new newE u c k ->
  built self h h' new newE [Enter_add_table_migration source destination].
Proof.
  unfold table_migration_added, built.
  intros (Ht & He & Htr & Hn & Hc & Hu & Hcp & Hk & Hb & Hku & Hkc & Hkk & _).
  rewrite Hu, Hcp, Hk. simpl. rewrite Hku, Hkc, Hkk.
  repeat split; auto. lia.
Qed.

Lemma built_schema env self source destination h h' new newE calls :
  pipelines_added self env source destination (list_tables env source)
    (logged h (Enter_add_schema_migration source destination)) h' new newE calls ->
  built self h h' new newE
    (Enter_add_schema_migration source destination :: map enter_table calls).
Proof.
  unfold pipelines_added, built.
  intros (Ht & He & Htr & Hn & Hc & _ & _ & _ & _ & Hu & Hcp & Hk & Hb).
  simpl in Ht, He, Htr, Hn, Hc.
  simpl. rewrite table_calls_enter, runs_enter.
  repeat split; auto. rewrite Htr, <- app_assoc. reflexivity.
Qed.

Lemma built_refl self h : built self h h [] [] [].
Proof. unfold built. simpl. rewrite !app_nil_r. repeat split; auto. Qed.

Lemma built_trans self h h1 h2 new1 newE1 evs1 new2 newE2 evs2 :
  built self h h1 new1 newE1 evs1 -> built self h1 h2 new2 newE2 evs2 ->
  built self h h2 (new1 ++ new2) (newE1 ++ newE2) (evs1 ++ evs2).
Proof.
  unfold built.
  intros (Ht & He & Htr & Hn & Hc & Hr & Hu & Hcp & Hk & Hb)
         (Ht2 & He2 & Htr2 & Hn2 & Hc2 & Hr2 & Hu2 & Hcp2 & Hk2 & Hb2).
  rewrite !at_stage_app, !map_app, table_calls_app, runs_app, !map_app.
  rewrite Hu, Hcp, Hk, Hb, Hu2, Hcp2, Hk2, Hb2, Hr, Hr2.
  rewrite Ht2, Ht, He2, He, Htr2, Htr, !app_assoc.
  repeat split; auto; try lia; congruence.
Qed.

(** The loop of [add_database_migration]. *)
Lemma schemas_loop env self source destination g schemas : forall h,
  WF self h ->
  exists h' new newE evs,
    for_each schemas (fun schema =>
      add_schema_migration env self
        (new_SchemaResource (get_cluster source) schema) destination g) h
    = (inr tt, h')
    /\ WF self h'
    /\ built self h h' new newE evs
    /\ schema_calls evs
       = map (fun s => (new_SchemaResource (get_cluster source) s, destination)) schemas
    /\ map (fun c => (get_schema (fst c), table (fst c))) (table_calls evs)
       = flat_map (fun s =>
                     map (fun t => (s, t))
                       (list_tables env (new_SchemaResource (get_cluster source) s)))
           schemas.
Proof.
  induction schemas as [|s schemas IH]; intros h HW.
  - exists h, [], [], []. simpl.
    split; [reflexivity|]. split; [assumption|]. split; [apply built_refl|].
    split; reflexivity.
  - simpl for_each.
    destruct (add_schema_migration_run env self
                (new_SchemaResource (get_cluster source) s) destination g h HW)
      as (h1 & new1 & newE1 & calls & Hrun & HW1 & Hadd).
    rewrite (bind_run _ _ _ _ _ Hrun).
    destruct (IH h1 HW1) as (h2 & new2 & newE2 & evs & Hrun2 & HW2 & Hb2 & Hs2 & Ht2).
    pose proof (built_schema _ _ _ _ _ _ _ _ _ Hadd) as Hb1.
    eexists h2, _, _, _. split; [exact Hrun2|]. split; [exact HW2|].
    split; [exact (built_trans _ _ _ _ _ _ _ _ _ _ Hb1 Hb2)|].
    destruct Hadd as (_ & _ & _ & _ & _ & Htab & Hcalls & _).
    split.
    + simpl. rewrite schema_calls_app, schema_calls_enter, Hs2. reflexivity.
    + simpl. rewrite table_calls_app, table_calls_enter, map_app, Ht2.
      f_equal. rewrite <- Htab, map_map.
      apply map_ext_in. intros c Hc. rewrite Forall_forall in Hcalls.
      destruct (Hcalls c Hc) as (Hf & _). rewrite Hf at 1. reflexivity.
Qed.

Lemma add_database_migration_run env self source destination g h :
  WF self h ->
  exists h' new newE evs,
    add_database_migration env self source destination g h = (inr tt, h')
    /\ WF self h'
    /\ built self h h' new newE (Enter_add_database_migration source destination :: evs)
    /\ schema_calls evs
       = map (fun s => (new_SchemaResource (get_cluster source) s, destination))
           (list_schemas env source)
    /\ map (fun c => (get_schema (fst c), table (fst c))) (table_calls evs)
       = flat_map (fun s =>
                     map (fun t => (s, t))
                       (list_tables env (new_SchemaResource (get_cluster source) s)))
           (list_schemas env source).
Proof.
  intros HW. unfold add_database_migration. rewrite bind_emit.
  destruct (schemas_loop env self source destination g (list_schemas env source)
              (logged h (Enter_add_database_migration source destination))
              (WF_logged self h _ HW))
    as (h' & new & newE & evs & Hrun & HW' & Hb & Hs & Ht).
  exists h', new, newE, evs.
  split; [assumption|]. split; [assumption|]. split; [|split; assumption].
  unfold built in *. simpl in Hb.
  destruct Hb as (H1 & H2 & H3 & H4 & H5 & H6 & H7 & H8 & H9 & H10).
  simpl. repeat split; auto. rewrite H3, <- app_assoc. reflexivity.
Qed.

(* ===================================================================== *)
(** ** [__init__] *)
(* ===================================================================== *)

Lemma ConfigHelper_init_pure env config_path s3_helper h :
  ConfigHelper_init env config_path s3_helper h = (loaded env config_path s3_helper, h).
Proof.
  unfold loaded, ConfigHelper_init.
  destruct (String.prefix "s3://" config_path).
  - destruct s3_helper as [helper|]; [|reflexivity].
    unfold bind, lift, ret. simpl.
    destruct (get_json_config_as_dict env helper config_path); reflexivity.
  - unfold bind, lift, ret. simpl.
    destruct (open_json env config_path); reflexivity.
Qed.

Lemma bind_set_config {A} g (f : unit -> M A) h :
  bind (set_config_parameters g) f h
  = f tt {| next_id := next_id h; task_manager := task_manager h;
            config_parameters := Some g; trace := trace h |}.
Proof. reflexivity. Qed.

Lemma bind_ConfigHelper_init {A} env config_path s3_helper (f : ConfigHelper -> M A) h :
  bind (ConfigHelper_init env config_path s3_helper) f h
  = match loaded env config_path s3_helper with
    | inl e => (inl e, h)
    | inr ch => f ch h
    end.
Proof. unfold bind. rewrite ConfigHelper_init_pure. reflexivity. Qed.

Lemma WF_after_barriers ch region_name g h :
  WF (self_of ch region_name (next_id h)) (after_barriers h g).
Proof.
  apply WF_Inv. constructor; simpl.
  - exists []. split; [reflexivity | constructor].
  - reflexivity.
  - reflexivity.
  - lia.
  - repeat constructor; simpl; lia.
  - constructor.
  - repeat constructor.
Qed.

Lemma isinstance_table_db r :
  isinstance r TableResource = true -> isinstance r DBResource = true.
Proof. unfold isinstance. destruct (class_of r); auto. Qed.

(** The branch on the resource classes, when the combination is supported. *)
Lemma dispatch_supported env self source destination g h :
  WF self h -> supported source destination = true ->
  exists h' new newE evs,
    dispatch env self source destination g h = (inr tt, h')
    /\ WF self h'
    /\ built self h h' new newE evs
    /\ (isinstance source TableResource = true ->
        exists d, evs = [Enter_add_table_migration source d]).
Proof.
  intros HW Hs. unfold supported in Hs. apply andb_true_iff in Hs as [Hsrc Hdst].
  unfold dispatch. rewrite Hdst.
  destruct (isinstance source TableResource) eqn:Ht.
  - match goal with
    | |- context [add_table_migration self source ?d g h] =>
        destruct (add_table_migration_run self source d g h HW)
          as (h' & new & newE & u & c & k & Hrun & HW' & Hadd);
        exists h', new, newE, [Enter_add_table_migration source d]
    end.
    split; [exact Hrun|]. split; [exact HW'|].
    split; [eapply built_table; exact Hadd|]. intros _. eexists. reflexivity.
  - destruct (isinstance source SchemaResource) eqn:Hsc.
    + simpl negb. cbv iota. rewrite bind_ret.
      destruct (add_schema_migration_run env self source destination g h HW)
        as (h' & new & newE & calls & Hrun & HW' & Hadd).
      exists h', new, newE, (Enter_add_schema_migration source destination
                              :: map enter_table calls).
      split; [exact Hrun|]. split; [exact HW'|].
      split; [eapply built_schema; exact Hadd|]. discriminate.
    + cbn [orb] in Hsrc. rewrite Hsrc.
      simpl negb. cbv iota. rewrite bind_ret.
      destruct (add_database_migration_run env self source destination g h HW)
        as (h' & new & newE & evs & Hrun & HW' & Hb & _).
      exists h', new, newE, (Enter_add_database_migration source destination :: evs).
      split; [exact Hrun|]. split; [exact HW'|]. split; [exact Hb|]. discriminate.
Qed.

(** The branch on the resource classes, when it is not: the fatal message
    is logged and [NotImplementedError] raised, nothing else happens. *)
Lemma dispatch_unsupported env self source destination g h :
  supported source destination = false ->
  exists message,
    dispatch env self source destination g h
    = (inl NotImplementedError, logged h (Log_fatal message)).
Proof.
  intros Hs. unfold supported in Hs. unfold dispatch.
  destruct (isinstance source TableResource) eqn:Ht.
  - cbn [orb andb] in Hs. rewrite Hs. eexists. reflexivity.
  - destruct (isinstance source SchemaResource) eqn:Hsc.
    + cbn [orb andb] in Hs. rewrite Hs. eexists. reflexivity.
    + destruct (isinstance source DBResource) eqn:Hdb.
      * cbn [orb andb] in Hs. rewrite Hs. eexists. reflexivity.
      * eexists. reflexivity.
Qed.

(** Every outcome of [__init__]. *)
Lemma init_outcome env config_file region_name g h :
  let s3 := {| s3_region := region_name |} in
  match loaded env config_file (Some s3) with
  | inl e =>
      UnloadCopyTool_init env config_file region_name g h
      = (inl e, {| next_id := next_id h; task_manager := task_manager h;
                   config_parameters := Some g; trace := trace h |})
  | inr ch =>
      let self := self_of ch region_name (next_id h) in
      let source := get_source_resource_from_config_helper env ch region_name in
      let destination := get_target_resource_from_config_helper env ch region_name in
      let hb := after_barriers h g in
      if supported source destination then
        exists h' new newE evs,
          dispatch env self source destination g hb = (inr tt, h')
          /\ UnloadCopyTool_init env config_file region_name g h
             = (inr self, logged h' (Run 4 (task_manager h')))
          /\ WF self h'
          /\ built self hb h' new newE evs
          /\ (isinstance source TableResource = true ->
              exists d, evs = [Enter_add_table_migration source d])
      else
        exists message,
          UnloadCopyTool_init env config_file region_name g h
          = (inl NotImplementedError, logged hb (Log_fatal message))
  end.
Proof.
  intros s3.
  assert (Hinit : UnloadCopyTool_init env config_file region_name g h
          = match loaded env config_file (Some s3) with
            | inl e => (inl e, {| next_id := next_id h; task_manager := task_manager h;
                                  config_parameters := Some g; trace := trace h |})
            | inr ch =>
                match dispatch env (self_of ch region_name (next_id h))
                        (get_source_resource_from_config_helper env ch region_name)
                        (get_target_resource_from_config_helper env ch region_name)
                        g (after_barriers h g) with
                | (inl e, h') => (inl e, h')
                | (inr _, h') =>
                    (inr (self_of ch region_name (next_id h)),
                     logged h' (Run 4 (task_manager h')))
                end
            end).
  { unfold UnloadCopyTool_init.
    rewrite bind_set_config, bind_ConfigHelper_init. fold s3.
    destruct (loaded env config_file (Some s3)) as [e|ch]; [reflexivity|].
    transitivity
      (bind (dispatch env (self_of ch region_name (next_id h))
               (get_source_resource_from_config_helper env ch region_name)
               (get_target_resource_from_config_helper env ch region_name) g)
            (fun _ => bind (run 4) (fun _ => ret (self_of ch region_name (next_id h))))
            (after_barriers h g)); [reflexivity|].
    unfold bind.
    destruct (dispatch env (self_of ch region_name (next_id h))
               (get_source_resource_from_config_helper env ch region_name)
               (get_target_resource_from_config_helper env ch region_name) g
               (after_barriers h g)) as [[e'|[]] h']; reflexivity. }
  rewrite Hinit. clear Hinit.
  destruct (loaded env config_file (Some s3)) as [e|ch]; [reflexivity|].
  cbv zeta.
  set (self := self_of ch region_name (next_id h)).
  set (source := get_source_resource_from_config_helper env ch region_name).
  set (destination := get_target_resource_from_config_helper env ch region_name).
  assert (HW : WF self (after_barriers h g)) by apply WF_after_barriers.
  destruct (supported source destination) eqn:Hs.
  - destruct (dispatch_supported env self source destination g _ HW Hs)
      as (h' & new & newE & evs & Hrun & HW' & Hb & Ht).
    exists h', new, newE, evs. rewrite Hrun.
    split; [reflexivity|]. split; [reflexivity|]. split; [assumption|].
    split; assumption.
  - destruct (dispatch_unsupported env self source destination g (after_barriers h g) Hs)
      as (message & Hrun).
    exists message. rewrite Hrun. reflexivity.
Qed.

(** The events [__init__] adds to the trace, by outcome. *)
Lemma init_events env config_file region_name g h :
  let r := UnloadCopyTool_init env config_file region_name g h in
  exists evs,
    trace (snd r) = trace h ++ evs
    /\ match fst r with
       | inr _ =>
           runs evs = [(4, task_manager (snd r))]
           /\ exists before, evs = before ++ [Run 4 (task_manager (snd r))]
                             /\ runs before = []
       | inl _ => runs evs = []
       end.
Proof.
  intros r. subst r.
  pose proof (init_outcome env config_file region_name g h) as H. cbv zeta in H.
  destruct (loaded env config_file (Some {| s3_region := region_name |})) as [e|ch].
  - rewrite H. exists []. simpl. rewrite app_nil_r. auto.
  - destruct (supported _ _).
    + destruct H as (h' & new & newE & evs & _ & Hinit & _ & Hb & _).
      rewrite Hinit. destruct Hb as (_ & _ & Htr & _ & _ & Hr & _).
      simpl in Htr. exists (evs ++ [Run 4 (task_manager h')]). simpl.
      rewrite Htr, <- app_assoc, runs_app, Hr. simpl.
      split; [reflexivity|]. split; [reflexivity|]. exists evs. auto.
    + destruct H as (message & Hinit). rewrite Hinit.
      exists [Log_fatal message]. simpl. auto.
Qed.

(* ===================================================================== *)
(** ** What the invariant says of the graph *)
(* ===================================================================== *)

Section Wiring.

Import TaskManager TaskManagerFacts.

Variable self : UnloadCopyTool.
Variable h : Heap.
Hypothesis HW : WF self h.

Abbreviation b1 := (barrier_after_all_cluster_pre_tests self).
Abbreviation b2 := (barrier_after_all_resource_pre_tests self).
Abbreviation tm := (task_manager h).

Lemma WF_wired t : In t (tasks tm) -> wiredb self tm t = true.
Proof.
  apply WF_Inv in HW. pose proof (inv_wired _ _ _ HW) as H.
  rewrite Forall_forall in H. apply H.
Qed.

Lemma WF_layout :
  exists rest, tasks tm = b1 :: b2 :: rest /\ at_stage Barrier rest = [].
Proof.
  apply WF_Inv in HW. destruct (inv_layout _ _ _ HW) as [rest [Hl Hr]].
  exists rest. split; [assumption|]. clear Hl.
  unfold at_stage. induction Hr as [|x l Hx _ IH]; simpl; [reflexivity|].
  destruct (stage_eqb (stage x) Barrier) eqn:E; [|assumption].
  apply stage_eqb_eq in E. contradiction.
Qed.

Lemma WF_cluster_pre_test t :
  In t (tasks tm) -> stage t = ClusterPreTest ->
  In (task_id t, task_id b1) (edges tm).
Proof.
  intros Hin Hs. pose proof (WF_wired t Hin) as H.
  unfold wiredb in H. rewrite Hs in H. now apply mem_edge_in.
Qed.

Lemma WF_between t :
  In t (tasks tm) -> stage t = ResourcePreTest \/ stage t = Creation ->
  In (task_id b1, task_id t) (edges tm) /\ In (task_id t, task_id b2) (edges tm).
Proof.
  intros Hin Hs. pose proof (WF_wired t Hin) as H.
  unfold wiredb in H.
  destruct Hs as [Hs|Hs]; rewrite Hs in H;
    apply andb_true_iff in H as [Ha Hb]; split; now apply mem_edge_in.
Qed.

Lemma WF_unload t :
  In t (tasks tm) -> stage t = Unload -> In (task_id b2, task_id t) (edges tm).
Proof.
  intros Hin Hs. pose proof (WF_wired t Hin) as H.
  unfold wiredb in H. rewrite Hs in H. now apply mem_edge_in.
Qed.

Lemma has_stage_task E t st :
  existsb (fun e => (snd e =? task_id t) && has_stage tm (fst e) st) E = true ->
  exists u, In u (tasks tm) /\ stage u = st /\ In (task_id u, task_id t) E.
Proof.
  intros H. apply existsb_exists in H as [[a b] [Hin He]]. simpl in He.
  apply andb_true_iff in He as [Hb Ha]. apply Nat.eqb_eq in Hb. subst b.
  unfold has_stage in Ha. destruct (lookup tm a) as [u|] eqn:Hu; [|discriminate].
  apply lookup_some in Hu as [Hu <-]. apply stage_eqb_eq in Ha.
  exists u. auto.
Qed.

Lemma WF_copy t :
  In t (tasks tm) -> stage t = Copy ->
  exists u, In u (tasks tm) /\ stage u = Unload /\ In (task_id u, task_id t) (edges tm).
Proof.
  intros Hin Hs. pose proof (WF_wired t Hin) as H.
  unfold wiredb in H. rewrite Hs in H. now apply has_stage_task.
Qed.

Lemma WF_cleanup t :
  In t (tasks tm) -> stage t = Cleanup ->
  exists c, In c (tasks tm) /\ stage c = Copy /\ In (task_id c, task_id t) (edges tm).
Proof.
  intros Hin Hs. pose proof (WF_wired t Hin) as H.
  unfold wiredb in H. rewrite Hs in H. now apply has_stage_task.
Qed.

(** The second barrier is ordered before every transfer task. *)
Lemma WF_gate_before_transfer t :
  In t (tasks tm) -> stage t = Unload \/ stage t = Copy \/ stage t = Cleanup ->
  precedes tm (task_id b2) (task_id t).
Proof.
  intros Hin [Hs|[Hs|Hs]].
  - apply precedes_edge. now apply WF_unload.
  - destruct (WF_copy t Hin Hs) as (u & Hu & Hsu & He).
    eapply precedes_step; [apply (WF_unload u Hu Hsu)|]. now apply precedes_edge.
  - destruct (WF_cleanup t Hin Hs) as (c & Hc & Hsc & He).
    destruct (WF_copy c Hc Hsc) as (u & Hu & Hsu & He').
    eapply precedes_step; [apply (WF_unload u Hu Hsu)|].
    eapply precedes_step; [exact He'|]. now apply precedes_edge.
Qed.

(** Every edge goes up in rank, hence so does the order. *)
Lemma WF_precedes_rank a b :
  precedes tm a b -> hrank self tm a < hrank self tm b.
Proof.
  apply WF_Inv in HW. pose proof (inv_edges _ _ _ HW) as HE.
  rewrite Forall_forall in HE.
  assert (Hedge : forall x y, In (x, y) (edges tm) -> hrank self tm x < hrank self tm y).
  { intros x y Hin. specialize (HE _ Hin). unfold edge_okb in HE.
    rewrite !andb_true_iff in HE. destruct HE as [_ Hr]. now apply Nat.ltb_lt in Hr. }
  induction 1 as [x y Hin|x y z Hin _ IH].
  - auto.
  - specialize (Hedge _ _ Hin). lia.
Qed.

Lemma WF_precedes_asym a b : precedes tm a b -> ~ precedes tm b a.
Proof.
  intros H1 H2. apply WF_precedes_rank in H1, H2. lia.
Qed.

End Wiring.

Lemma precedes_more tm tm' a b :
  (forall e, In e (TaskManager.edges tm) -> In e (TaskManager.edges tm')) ->
  TaskManager.precedes tm a b -> TaskManager.precedes tm' a b.
Proof.
  intros Hsub. induction 1 as [x y Hin|x y z Hin _ IH].
  - apply TaskManager.precedes_edge. auto.
  - eapply TaskManager.precedes_step; [apply Hsub; eassumption | exact IH].
Qed.

Lemma at_stage_in st t l : In t (at_stage st l) <-> In t l /\ stage t = st.
Proof.
  unfold at_stage. rewrite filter_In, stage_eqb_eq. reflexivity.
Qed.

Lemma at_stage_single st t l : at_stage st l = [t] -> In t l /\ stage t = st.
Proof. intros H. apply at_stage_in. rewrite H. simpl. auto. Qed.

(* ===================================================================== *)
(** ** The builder: what one pipeline is *)
(* ===================================================================== *)

(** C1.  Every call of [add_table_migration], on a heap in which [self] can
    build, returns and has appended to the shared graph exactly one
    [UnloadDataToS3Task], one [CopyDataFromS3Task] and one
    [CleanupS3StagingAreaTask]; the unload task is added with the
    resource-pre-test barrier as its dependency, the copy task with the
    unload task, the cleanup task with the copy task.  Hence unload is
    ordered before copy and copy before cleanup, and not the other way
    round. *)
Theorem add_table_migration_wires_transfer_chain self source destination g h :
  WF self h ->
  exists h' new newE unload_data copy_data s3_cleanup,
    add_table_migration self source destination g h = (inr tt, h')
    /\ TaskManager.tasks (task_manager h') = TaskManager.tasks (task_manager h) ++ new
    /\ TaskManager.edges (task_manager h') = TaskManager.edges (task_manager h) ++ newE
    /\ at_stage Unload new = [unload_data]
    /\ at_stage Copy new = [copy_data]
    /\ at_stage Cleanup new = [s3_cleanup]
    /\ task_kind unload_data = UnloadDataToS3Task source (staging self source)
    /\ task_kind copy_data
       = CopyDataFromS3Task (effective_destination self destination) (staging self source)
    /\ task_kind s3_cleanup = CleanupS3StagingAreaTask (staging self source)
    /\ In (task_id (barrier_after_all_resource_pre_tests self), task_id unload_data) newE
    /\ In (task_id unload_data, task_id copy_data) newE
    /\ In (task_id copy_data, task_id s3_cleanup) newE
    /\ TaskManager.precedes (task_manager h') (task_id unload_data) (task_id copy_data)
    /\ TaskManager.precedes (task_manager h') (task_id copy_data) (task_id s3_cleanup)
    /\ ~ TaskManager.precedes (task_manager h') (task_id copy_data) (task_id unload_data)
    /\ ~ TaskManager.precedes (task_manager h') (task_id s3_cleanup) (task_id copy_data).
Proof.
  intros HW.
  destruct (add_table_migration_run self source destination g h HW)
    as (h' & new & newE & u & c & k & Hrun & HW' & Hadd).
  destruct Hadd as (Ht & He & _ & _ & _ & Hu & Hc & Hk & _ & Hku & Hkc & Hkk
                    & Hbu & Huc & Hck & _).
  exists h', new, newE, u, c, k.
  assert (Puc : TaskManager.precedes (task_manager h') (task_id u) (task_id c)).
  { apply TaskManager.precedes_edge. rewrite He. apply in_or_app. now right. }
  assert (Pck : TaskManager.precedes (task_manager h') (task_id c) (task_id k)).
  { apply TaskManager.precedes_edge. rewrite He. apply in_or_app. now right. }
  repeat (split; [assumption|]).
  split; apply (WF_precedes_asym self h' HW'); assumption.
Qed.

(** C1, at a call that adds the first pipeline of a run. *)
Lemma add_table_migration_wires_transfer_chain_witness :
  WF demo_self (demo_heap (demo_flags true false false false))
  /\ exists h',
       add_table_migration demo_self
         (demo_resource TableResource "source" 100)
         (demo_resource TableResource "target" 101)
         (demo_flags true false false false)
         (demo_heap (demo_flags true false false false)) = (inr tt, h').
Proof.
  split; [vm_compute; reflexivity|].
  destruct (add_table_migration_wires_transfer_chain demo_self
              (demo_resource TableResource "source" 100)
              (demo_resource TableResource "target" 101)
              (demo_flags true false false false)
              (demo_heap (demo_flags true false false false)) eq_refl)
    as (h' & _ & _ & _ & _ & _ & Hrun & _).
  exists h'. exact Hrun.
Defined.

(** C3.  Every call of [add_table_migration] returns, and in the graph it
    leaves every cluster-reachability check is a predecessor of the one
    cluster-pre-test barrier of [self], and every resource-existence check
    has that barrier among its dependencies and is a predecessor of the
    resource-pre-test barrier.  Which checks the call has added is spelled
    out from the pre-test flags. *)
Theorem add_table_migration_wires_pre_tests self source destination g h :
  WF self h ->
  exists h' new,
    add_table_migration self source destination g h = (inr tt, h')
    /\ TaskManager.tasks (task_manager h') = TaskManager.tasks (task_manager h) ++ new
    /\ map task_kind (at_stage ClusterPreTest new)
       = (if connectionPreTest g && negb (destinationTablePreTest g)
          then [FailIfResourceClusterDoesNotExistsTask
                  (effective_destination self destination)] else [])
         ++ (if connectionPreTest g && negb (sourceTablePreTest g)
             then [FailIfResourceClusterDoesNotExistsTask source] else [])
         ++ (if destinationTablePreTest g && destinationTableAutoCreate g
             then [FailIfResourceClusterDoesNotExistsTask
                     (effective_destination self destination)] else [])
    /\ map task_kind (at_stage ResourcePreTest new)
       = (if destinationTablePreTest g && negb (destinationTableAutoCreate g)
          then [FailIfResourceDoesNotExistsTask
                  (effective_destination self destination)] else [])
         ++ (if sourceTablePreTest g
             then [FailIfResourceDoesNotExistsTask source] else [])
    /\ (forall t r, In t (TaskManager.tasks (task_manager h')) ->
          task_kind t = FailIfResourceClusterDoesNotExistsTask r ->
          In (task_id t, task_id (barrier_after_all_cluster_pre_tests self))
             (TaskManager.edges (task_manager h')))
    /\ (forall t r, In t (TaskManager.tasks (task_manager h')) ->
          task_kind t = FailIfResourceDoesNotExistsTask r ->
          In (task_id (barrier_after_all_cluster_pre_tests self), task_id t)
             (TaskManager.edges (task_manager h'))
          /\ In (task_id t, task_id (barrier_after_all_resource_pre_tests self))
                (TaskManager.edges (task_manager h'))).
Proof.
  intros HW.
  destruct (add_table_migration_run self source destination g h HW)
    as (h' & new & newE & u & c & k & Hrun & HW' & Hadd).
  destruct Hadd as (Ht & _ & _ & _ & _ & _ & _ & _ & _ & _ & _ & _ & _ & _ & _
                    & Hcl & Hre & _).
  exists h', new. repeat (split; [assumption|]). split.
  - intros t r Hin Hk. apply (WF_cluster_pre_test self h' HW' t Hin).
    unfold stage. now rewrite Hk.
  - intros t r Hin Hk. apply (WF_between self h' HW' t Hin).
    left. unfold stage. now rewrite Hk.
Qed.

(** C3, at a call with all the pre-tests of the tables switched on. *)
Lemma add_table_migration_wires_pre_tests_witness :
  WF demo_self (demo_heap (demo_flags true true true false))
  /\ exists h',
       add_table_migration demo_self
         (demo_resource TableResource "source" 100)
         (demo_resource TableResource "target" 101)
         (demo_flags true true true false)
         (demo_heap (demo_flags true true true false)) = (inr tt, h').
Proof.
  split; [vm_compute; reflexivity|].
  destruct (add_table_migration_wires_pre_tests demo_self
              (demo_resource TableResource "source" 100)
              (demo_resource TableResource "target" 101)
              (demo_flags true true true false)
              (demo_heap (demo_flags true true true false)) eq_refl)
    as (h' & _ & Hrun & _).
  exists h'. exact Hrun.
Defined.

(** C7.  With [destinationTableAutoCreate] on, a call of
    [add_table_migration] adds exactly one [CreateIfTargetDoesNotExistTask],
    for its own source and destination, with the cluster-pre-test barrier
    as its dependency and as a predecessor of the resource-pre-test
    barrier.  In the graph the call leaves, every cluster-reachability
    check is ordered before that task and it is ordered before every
    unload, copy and cleanup task. *)
Theorem add_table_migration_wires_creation self source destination g h :
  WF self h ->
  destinationTableAutoCreate g = true ->
  exists h' new create_target,
    add_table_migration self source destination g h = (inr tt, h')
    /\ TaskManager.tasks (task_manager h') = TaskManager.tasks (task_manager h) ++ new
    /\ at_stage Creation new = [create_target]
    /\ task_kind create_target
       = CreateIfTargetDoesNotExistTask source (effective_destination self destination)
    /\ In (task_id (barrier_after_all_cluster_pre_tests self), task_id create_target)
          (TaskManager.edges (task_manager h'))
    /\ In (task_id create_target, task_id (barrier_after_all_resource_pre_tests self))
          (TaskManager.edges (task_manager h'))
    /\ (forall t, In t (TaskManager.tasks (task_manager h')) ->
          stage t = ClusterPreTest ->
          TaskManager.precedes (task_manager h') (task_id t) (task_id create_target))
    /\ (forall t, In t (TaskManager.tasks (task_manager h')) ->
          stage t = Unload \/ stage t = Copy \/ stage t = Cleanup ->
          TaskManager.precedes (task_manager h') (task_id create_target) (task_id t)).
Proof.
  intros HW Hac.
  destruct (add_table_migration_run self source destination g h HW)
    as (h' & new & newE & u & c & k & Hrun & HW' & Hadd).
  destruct Hadd as (Ht & _ & _ & _ & _ & _ & _ & _ & _ & _ & _ & _ & _ & _ & _
                    & _ & _ & Hcr).
  rewrite Hac in Hcr.
  destruct (at_stage Creation new) as [|t [|t' l]] eqn:Hst; try discriminate.
  injection Hcr as Hk.
  destruct (at_stage_single Creation t new Hst) as [Hin Hs].
  assert (Hin' : In t (TaskManager.tasks (task_manager h')))
    by (rewrite Ht; apply in_or_app; now right).
  destruct (WF_between self h' HW' t Hin' (or_intror Hs)) as [Hb1 Hb2].
  exists h', new, t. repeat (split; [assumption|]). split.
  - intros x Hx Hsx. eapply TaskManager.precedes_step.
    + apply (WF_cluster_pre_test self h' HW' x Hx Hsx).
    + now apply TaskManager.precedes_edge.
  - intros x Hx Hsx. eapply TaskManager.precedes_step; [exact Hb2|].
    apply (WF_gate_before_transfer self h' HW' x Hx Hsx).
Qed.

(** C7, at a call with auto-creation and the destination pre-test on. *)
Lemma add_table_migration_wires_creation_witness :
  WF demo_self (demo_heap (demo_flags true true false true))
  /\ destinationTableAutoCreate (demo_flags true true false true) = true
  /\ exists h',
       add_table_migration demo_self
         (demo_resource TableResource "source" 100)
         (demo_resource TableResource "target" 101)
         (demo_flags true true false true)
         (demo_heap (demo_flags true true false true)) = (inr tt, h').
Proof.
  split; [vm_compute; reflexivity|]. split; [reflexivity|].
  destruct (add_table_migration_wires_creation demo_self
              (demo_resource TableResource "source" 100)
              (demo_resource TableResource "target" 101)
              (demo_flags true true false true)
              (demo_heap (demo_flags true true false true)) eq_refl eq_refl)
    as (h' & _ & _ & Hrun & _).
  exists h'. exact Hrun.
Defined.

(* ===================================================================== *)
(** ** The gate before the transfer tasks *)
(* ===================================================================== *)

(** The part of the gate that holds in every graph the builder makes: the
    second barrier is ordered before every transfer task and after every
    resource-existence check and creation task; and after the cluster
    checks too, as soon as one task sits between the two barriers. *)
Lemma gate_in_linked_graphs self h :
  WF self h ->
  (forall t, In t (TaskManager.tasks (task_manager h)) ->
     stage t = Unload \/ stage t = Copy \/ stage t = Cleanup ->
     TaskManager.precedes (task_manager h)
       (task_id (barrier_after_all_resource_pre_tests self)) (task_id t))
  /\ (forall p, In p (TaskManager.tasks (task_manager h)) ->
        stage p = ResourcePreTest \/ stage p = Creation ->
        TaskManager.precedes (task_manager h)
          (task_id p) (task_id (barrier_after_all_resource_pre_tests self)))
  /\ ((exists m, In m (TaskManager.tasks (task_manager h))
                 /\ (stage m = ResourcePreTest \/ stage m = Creation)) ->
      forall p, In p (TaskManager.tasks (task_manager h)) ->
        stage p = ClusterPreTest ->
        TaskManager.precedes (task_manager h)
          (task_id p) (task_id (barrier_after_all_resource_pre_tests self))).
Proof.
  intros HW. split; [|split].
  - apply (WF_gate_before_transfer self h HW).
  - intros p Hp Hs. apply TaskManager.precedes_edge.
    apply (WF_between self h HW p Hp Hs).
  - intros (m & Hm & Hsm) p Hp Hs.
    destruct (WF_between self h HW m Hm Hsm) as [H1 H2].
    eapply TaskManager.precedes_step;
      [apply (WF_cluster_pre_test self h HW p Hp Hs)|].
    eapply TaskManager.precedes_step; [exact H1|].
    now apply TaskManager.precedes_edge.
Qed.

(** C2.  The run of [__init__] for a table migration with
    [connectionPreTest] on and the three other flags off: both cluster
    checks are added (handles 2 and 3) as predecessors of the first
    barrier (handle 0), the unload task (handle 4) depends on the second
    barrier (handle 1), and nothing links the two barriers.  The second
    barrier is no successor of the cluster checks, and the unload task is
    not ordered after them. *)
Theorem cluster_checks_not_before_unload :
  exists self h',
    UnloadCopyTool_init (demo_env TableResource DBResource)
      "config.json" "eu-west-1" (demo_flags true false false false) empty_heap
    = (inr self, h')
    /\ task_id (barrier_after_all_cluster_pre_tests self) = 0
    /\ task_id (barrier_after_all_resource_pre_tests self) = 1
    /\ map (fun t => (task_id t, stage t)) (TaskManager.tasks (task_manager h'))
       = [(0, Barrier); (1, Barrier); (2, ClusterPreTest); (3, ClusterPreTest);
          (4, Unload); (5, Copy); (6, Cleanup)]
    /\ TaskManager.edges (task_manager h') = [(2, 0); (3, 0); (1, 4); (4, 5); (5, 6)]
    /\ ~ TaskManager.precedes (task_manager h') 2 1
    /\ ~ TaskManager.precedes (task_manager h') 3 1
    /\ ~ TaskManager.precedes (task_manager h') 2 4
    /\ ~ TaskManager.precedes (task_manager h') 3 4.
Proof.
  eexists. eexists. split; [vm_compute; reflexivity|].
  repeat (split; [reflexivity|]).
  repeat split; intros H.
  - apply (TaskManagerFacts.precedes_closed _ [2; 0]) in H; [discriminate|reflexivity..].
  - apply (TaskManagerFacts.precedes_closed _ [3; 0]) in H; [discriminate|reflexivity..].
  - apply (TaskManagerFacts.precedes_closed _ [2; 0]) in H; [discriminate|reflexivity..].
  - apply (TaskManagerFacts.precedes_closed _ [3; 0]) in H; [discriminate|reflexivity..].
Qed.

(* ===================================================================== *)
(** ** One pipeline per table *)
(* ===================================================================== *)

(** C4.  On a heap in which [self] can build, [add_database_migration]
    calls [add_schema_migration] once for each schema the source lists, in
    order, and has [add_table_migration] called once for each table of
    each of them; [add_schema_migration] calls [add_table_migration] once
    for each table the schema lists, in order.  [__init__], for a source
    that is a table resource and a destination that is a database
    resource, calls [add_table_migration] exactly once and then the
    executor.  In all three the calls of [add_table_migration] and the
    unload, the copy and the cleanup tasks added match one to one. *)
Theorem one_pipeline_per_table env g :
  (forall self source destination h,
     WF self h ->
     exists h' new newE evs,
       add_database_migration env self source destination g h = (inr tt, h')
       /\ built self h h' new newE (Enter_add_database_migration source destination :: evs)
       /\ schema_calls evs
          = map (fun s => (new_SchemaResource (get_cluster source) s, destination))
              (list_schemas env source)
       /\ map (fun c => (get_schema (fst c), table (fst c))) (table_calls evs)
          = flat_map (fun s =>
                        map (fun t => (s, t))
                          (list_tables env (new_SchemaResource (get_cluster source) s)))
              (list_schemas env source))
  /\ (forall self source destination h,
        WF self h ->
        exists h' new newE calls,
          add_schema_migration env self source destination g h = (inr tt, h')
          /\ built self h h' new newE
               (Enter_add_schema_migration source destination :: map enter_table calls)
          /\ map (fun c => (get_schema (fst c), table (fst c))) calls
             = map (fun t => (get_schema source, t)) (list_tables env source))
  /\ (forall config_file region_name h ch,
        loaded env config_file (Some {| s3_region := region_name |}) = inr ch ->
        let source := get_source_resource_from_config_helper env ch region_name in
        let destination := get_target_resource_from_config_helper env ch region_name in
        isinstance source TableResource = true ->
        isinstance destination DBResource = true ->
        exists self h' d,
          UnloadCopyTool_init env config_file region_name g h = (inr self, h')
          /\ trace h' = trace h ++ [Enter_add_table_migration source d;
                                     Run 4 (task_manager h')]
          /\ List.length (at_stage Unload (TaskManager.tasks (task_manager h'))) = 1
          /\ List.length (at_stage Copy (TaskManager.tasks (task_manager h'))) = 1
          /\ List.length (at_stage Cleanup (TaskManager.tasks (task_manager h'))) = 1).
Proof.
  split; [|split].
  - intros self source destination h HW.
    destruct (add_database_migration_run env self source destination g h HW)
      as (h' & new & newE & evs & Hrun & _ & Hb & Hs & Ht).
    exists h', new, newE, evs. auto.
  - intros self source destination h HW.
    destruct (add_schema_migration_run env self source destination g h HW)
      as (h' & new & newE & calls & Hrun & _ & Hadd).
    exists h', new, newE, calls. split; [assumption|].
    split; [eapply built_schema; exact Hadd|].
    destruct Hadd as (_ & _ & _ & _ & _ & Htab & Hcalls & _).
    rewrite <- Htab, map_map. apply map_ext_in. intros c Hc.
    rewrite Forall_forall in Hcalls. destruct (Hcalls c Hc) as (Hf & _).
    rewrite Hf at 1. reflexivity.
  - intros config_file region_name h ch Hl source destination Ht Hd.
    pose proof (init_outcome env config_file region_name g h) as H. cbv zeta in H.
    rewrite Hl in H. fold source destination in H.
    assert (Hs : supported source destination = true)
      by (unfold supported; rewrite Ht, Hd; reflexivity).
    rewrite Hs in H.
    destruct H as (h' & new & newE & evs & _ & Hinit & _ & Hb & Hev).
    destruct (Hev Ht) as [d ->].
    exists (self_of ch region_name (next_id h)), (logged h' (Run 4 (task_manager h'))), d.
    split; [assumption|].
    destruct Hb as (Htasks & _ & Htr & _ & _ & _ & Hu & Hc & Hk & _).
    simpl in Htasks, Htr. simpl. rewrite Htr, Htasks, <- app_assoc.
    split; [reflexivity|].
    apply (f_equal (@List.length _)) in Hu, Hc, Hk.
    rewrite !length_map in Hu, Hc, Hk. simpl in Hu, Hc, Hk.
    simpl. auto.
Qed.

(** C4, for a single table. *)
Lemma one_pipeline_per_table_witness :
  exists self h' d,
    UnloadCopyTool_init (demo_env TableResource DBResource) "config.json" "eu-west-1"
      (demo_flags true true true true) empty_heap = (inr self, h')
    /\ trace h'
       = [Enter_add_table_migration (demo_resource TableResource "source" 100) d;
          Run 4 (task_manager h')].
Proof.
  destruct (proj2 (proj2 (one_pipeline_per_table (demo_env TableResource DBResource)
                            (demo_flags true true true true)))
              "config.json" "eu-west-1" empty_heap
              {| ch_s3_helper := Some {| s3_region := "eu-west-1" |};
                 config := demo_config |}
              eq_refl eq_refl eq_refl)
    as (self & h' & d & Hinit & Htr & _).
  exists self, h', d. split; [exact Hinit | exact Htr].
Defined.

(* ===================================================================== *)
(** ** The run of the executor and the errors before it *)
(* ===================================================================== *)

(** C5, as stated, fails: for a database source and a destination that is
    no database resource, [__init__] raises before it reaches
    [task_manager.run], and the executor is invoked zero times. *)
Lemma executor_not_invoked_when_unsupported :
  ~ List.length
      (runs (trace (snd (UnloadCopyTool_init (demo_env DBResource Resource_)
                           "config.json" "eu-west-1"
                           (demo_flags true true true true) empty_heap)))) = 1.
Proof. vm_compute. discriminate. Qed.

(** C5, amended.  Whenever [__init__] returns, the events it has added end
    with the one invocation of the executor, made on the final graph with
    [max_threads = 4] whatever that graph holds; whenever it raises, the
    executor has not been invoked. *)
Theorem executor_invoked_once_after_build env config_file region_name g h :
  let r := UnloadCopyTool_init env config_file region_name g h in
  exists evs,
    trace (snd r) = trace h ++ evs
    /\ match fst r with
       | inr _ =>
           runs evs = [(4, task_manager (snd r))]
           /\ exists before, evs = before ++ [Run 4 (task_manager (snd r))]
                             /\ runs before = []
       | inl _ => runs evs = []
       end.
Proof. exact (init_events env config_file region_name g h). Qed.

(** C6.  Whenever [__init__] raises, whatever the exception, the executor
    has not been invoked.  When the configuration is loaded and the source
    is a table and the destination no database resource, or the source a
    schema or a database and the destination no database resource, or the
    source of none of the three classes, [__init__] raises
    [NotImplementedError] after it has logged the fatal message; the graph
    then holds the two barriers and nothing has run. *)
Theorem build_errors_precede_run env config_file region_name g h :
  (forall e h',
     UnloadCopyTool_init env config_file region_name g h = (inl e, h') ->
     exists evs, trace h' = trace h ++ evs /\ runs evs = [])
  /\ (forall ch,
        loaded env config_file (Some {| s3_region := region_name |}) = inr ch ->
        let source := get_source_resource_from_config_helper env ch region_name in
        let destination := get_target_resource_from_config_helper env ch region_name in
        (isinstance source TableResource = true
         /\ isinstance destination DBResource = false)
        \/ ((isinstance source SchemaResource = true
             \/ isinstance source DBResource = true)
            /\ isinstance destination DBResource = false)
        \/ (isinstance source TableResource = false
            /\ isinstance source SchemaResource = false
            /\ isinstance source DBResource = false) ->
        exists message,
          UnloadCopyTool_init env config_file region_name g h
          = (inl NotImplementedError,
             logged (after_barriers h g) (Log_fatal message))).
Proof.
  split.
  - intros e h' Hinit.
    destruct (init_events env config_file region_name g h)
      as (evs & Htr & Hr).
    rewrite Hinit in Htr, Hr. simpl in Htr, Hr. eauto.
  - intros ch Hl source destination Hu.
    pose proof (init_outcome env config_file region_name g h) as H. cbv zeta in H.
    rewrite Hl in H. fold source destination in H.
    assert (Hs : supported source destination = false).
    { unfold supported.
      destruct Hu as [[_ Hd]|[[_ Hd]|(Ht & Hsc & Hdb)]].
      - rewrite Hd. apply andb_false_r.
      - rewrite Hd. apply andb_false_r.
      - rewrite Ht, Hsc, Hdb. reflexivity. }
    rewrite Hs in H. exact H.
Qed.

(** C6, for a database source and a destination that is no database
    resource. *)
Lemma build_errors_precede_run_witness :
  exists message,
    UnloadCopyTool_init (demo_env DBResource Resource_) "config.json" "eu-west-1"
      (demo_flags true true true true) empty_heap
    = (inl NotImplementedError,
       logged (after_barriers empty_heap (demo_flags true true true true))
         (Log_fatal message)).
Proof.
  apply (proj2 (build_errors_precede_run (demo_env DBResource Resource_)
                  "config.json" "eu-west-1" (demo_flags true true true true)
                  empty_heap)
           {| ch_s3_helper := Some {| s3_region := "eu-west-1" |};
              config := demo_config |}).
  - reflexivity.
  - right. left. split; [right|]; reflexivity.
Defined.

(* ===================================================================== *)
(** ** The two barriers *)
(* ===================================================================== *)

(** C8.  Whenever [__init__] returns, the graph begins with the two
    barriers of the object, both [NoOperationTask]s and distinct, added
    before everything else; no other task of the graph is a barrier, and
    every pipeline task is wired to these two: each cluster check is a
    predecessor of the first, each resource check and creation task a
    successor of the first and a predecessor of the second, and each
    unload task a successor of the second. *)
Theorem two_shared_barriers env config_file region_name g h self h' :
  UnloadCopyTool_init env config_file region_name g h = (inr self, h') ->
  task_kind (barrier_after_all_cluster_pre_tests self) = NoOperationTask
  /\ task_kind (barrier_after_all_resource_pre_tests self) = NoOperationTask
  /\ task_id (barrier_after_all_cluster_pre_tests self)
     <> task_id (barrier_after_all_resource_pre_tests self)
  /\ exists rest,
       TaskManager.tasks (task_manager h')
       = barrier_after_all_cluster_pre_tests self
         :: barrier_after_all_resource_pre_tests self :: rest
       /\ at_stage Barrier rest = []
       /\ forall t, In t rest ->
            (stage t = ClusterPreTest ->
             In (task_id t, task_id (barrier_after_all_cluster_pre_tests self))
                (TaskManager.edges (task_manager h')))
            /\ (stage t = ResourcePreTest \/ stage t = Creation ->
                In (task_id (barrier_after_all_cluster_pre_tests self), task_id t)
                   (TaskManager.edges (task_manager h'))
                /\ In (task_id t, task_id (barrier_after_all_resource_pre_tests self))
                      (TaskManager.edges (task_manager h')))
            /\ (stage t = Unload ->
                In (task_id (barrier_after_all_resource_pre_tests self), task_id t)
                   (TaskManager.edges (task_manager h'))).
Proof.
  intros Hinit.
  pose proof (init_outcome env config_file region_name g h) as H. cbv zeta in H.
  destruct (loaded env config_file (Some {| s3_region := region_name |})) as [e|ch];
    [rewrite H in Hinit; discriminate|].
  destruct (supported _ _);
    [|destruct H as (message & H); rewrite H in Hinit; discriminate].
  destruct H as (h1 & new & newE & evs & _ & H & HW & _).
  rewrite H in Hinit. injection Hinit as <- <-.
  change (task_manager (logged h1 (Run 4 (task_manager h1)))) with (task_manager h1).
  set (self := self_of ch region_name (next_id h)) in *.
  split; [reflexivity|]. split; [reflexivity|]. split; [simpl; lia|].
  destruct (WF_layout self h1 HW) as (rest & Hl & Hb).
  exists rest. split; [exact Hl|]. split; [exact Hb|].
  intros t Ht.
  assert (Hin : In t (TaskManager.tasks (task_manager h1)))
    by (rewrite Hl; simpl; auto).
  split; [|split].
  - apply (WF_cluster_pre_test self h1 HW t Hin).
  - apply (WF_between self h1 HW t Hin).
  - apply (WF_unload self h1 HW t Hin).
Qed.

(** C8, for a source database with three tables in two schemas. *)
Lemma two_shared_barriers_witness :
  exists self h',
    UnloadCopyTool_init (demo_env DBResource DBResource) "config.json" "eu-west-1"
      (demo_flags true true true true) empty_heap = (inr self, h')
    /\ exists rest,
         TaskManager.tasks (task_manager h')
         = barrier_after_all_cluster_pre_tests self
           :: barrier_after_all_resource_pre_tests self :: rest
         /\ at_stage Barrier rest = [].
Proof.
  destruct (UnloadCopyTool_init (demo_env DBResource DBResource) "config.json"
              "eu-west-1" (demo_flags true true true true) empty_heap)
    as [[e|self] h'] eqn:Hinit.
  - exfalso. vm_compute in Hinit. discriminate.
  - exists self, h'. split; [reflexivity|].
    destruct (two_shared_barriers (demo_env DBResource DBResource)
                "config.json" "eu-west-1" (demo_flags true true true true)
                empty_heap self h' Hinit)
      as (_ & _ & _ & rest & Hl & Hb & _).
    exists rest. split; assumption.
Defined.

(* ===================================================================== *)
(** ** Loading the configuration *)
(* ===================================================================== *)

(** C9.  For a path that starts with [s3://], [ConfigHelper.__init__]
    raises when no helper is given, and otherwise holds what the helper
    loads from that path; for any other path it holds what the local file
    parses to.  In each case the heap is left as it was: no object has
    been created and no task added.  So in [__init__] an exception of the
    configuration helper reaches the caller with the task manager and the
    object counter untouched. *)
Theorem config_helper_loads_or_raises env config_path h :
  (String.prefix "s3://" config_path = true ->
   ConfigHelper_init env config_path None h
   = (inl (Exception_ "No region set to get config file but it resides on S3"), h))
  /\ (String.prefix "s3://" config_path = true ->
      forall helper,
        ConfigHelper_init env config_path (Some helper) h
        = (match get_json_config_as_dict env helper config_path with
           | inl e => inl e
           | inr c => inr {| ch_s3_helper := Some helper; config := c |}
           end, h))
  /\ (String.prefix "s3://" config_path = false ->
      forall s3_helper,
        ConfigHelper_init env config_path s3_helper h
        = (match open_json env config_path with
           | inl e => inl e
           | inr c => inr {| ch_s3_helper := s3_helper; config := c |}
           end, h))
  /\ (forall region_name g e,
        ConfigHelper_init env config_path (Some {| s3_region := region_name |}) h
        = (inl e, h) ->
        exists h',
          UnloadCopyTool_init env config_path region_name g h = (inl e, h')
          /\ task_manager h' = task_manager h
          /\ next_id h' = next_id h
          /\ trace h' = trace h).
Proof.
  split; [|split; [|split]].
  - intros Hp. unfold ConfigHelper_init. rewrite Hp. reflexivity.
  - intros Hp helper. unfold ConfigHelper_init. rewrite Hp.
    unfold bind, lift, ret.
    destruct (get_json_config_as_dict env helper config_path); reflexivity.
  - intros Hp s3_helper. unfold ConfigHelper_init. rewrite Hp.
    unfold bind, lift, ret.
    destruct (open_json env config_path); reflexivity.
  - intros region_name g e He.
    rewrite ConfigHelper_init_pure in He. injection He as He.
    pose proof (init_outcome env config_path region_name g h) as H. cbv zeta in H.
    rewrite He in H. eexists. split; [exact H|]. auto.
Qed.

(** C9, for a configuration on S3 and no helper. *)
Lemma config_helper_loads_or_raises_witness :
  String.prefix "s3://" "s3://bucket/config.json" = true
  /\ ConfigHelper_init (demo_env TableResource DBResource)
       "s3://bucket/config.json" None empty_heap
     = (inl (Exception_ "No region set to get config file but it resides on S3"),
        empty_heap).
Proof.
  split; [reflexivity|].
  apply (proj1 (config_helper_loads_or_raises (demo_env TableResource DBResource)
                  "s3://bucket/config.json" empty_heap)).
  reflexivity.
Defined.

(* ===================================================================== *)
(** ** One cluster object per pipeline and side *)
(* ===================================================================== *)

(** C10.  On a heap in which [self] can build, [add_schema_migration]
    returns having called [add_table_migration] once per table; the source
    of each call is a table resource on a cluster object made from
    [config['unloadSource']], its destination is on a cluster object made
    from [config['copyTarget']], all these cluster objects are pairwise
    distinct and none existed before the call.  The unload and copy tasks
    added work on exactly these resources. *)
Theorem add_schema_migration_fresh_clusters env self source destination g h :
  WF self h ->
  exists h' new calls,
    add_schema_migration env self source destination g h = (inr tt, h')
    /\ trace h' = trace h ++ Enter_add_schema_migration source destination
                              :: map enter_table calls
    /\ map (fun c => table (fst c)) calls = list_tables env source
    /\ Forall (fun c =>
         fst c = new_TableResource (cluster (fst c)) (get_schema source) (table (fst c))
         /\ cluster_dict (cluster (fst c)) = unloadSource (config (config_helper self))
         /\ snd c = set_cluster
                      (get_table_resource_from_merging_2_resources env destination (fst c))
                      (cluster (snd c))
         /\ cluster_dict (cluster (snd c)) = copyTarget (config (config_helper self)))
         calls
    /\ NoDup (flat_map call_clusters calls)
    /\ Forall (fun i => next_id h <= i < next_id h') (flat_map call_clusters calls)
    /\ TaskManager.tasks (task_manager h') = TaskManager.tasks (task_manager h) ++ new
    /\ map task_kind (at_stage Unload new)
       = map (fun c => UnloadDataToS3Task (fst c) (staging self (fst c))) calls
    /\ map task_kind (at_stage Copy new)
       = map (fun c => CopyDataFromS3Task (effective_destination self (snd c))
                         (staging self (fst c))) calls.
Proof.
  intros HW.
  destruct (add_schema_migration_run env self source destination g h HW)
    as (h' & new & newE & calls & Hrun & _ & Hadd).
  destruct Hadd as (Ht & _ & Htr & _ & _ & Htab & Hcalls & Hnd & Hids & Hu & Hc & _).
  simpl in Ht, Htr, Hids.
  exists h', new, calls. split; [assumption|].
  split; [rewrite Htr, <- app_assoc; reflexivity|].
  split; [assumption|]. split.
  - eapply Forall_impl; [|exact Hcalls]. simpl. intros c H. tauto.
  - auto.
Qed.

(** C10, for the schema [public] of the demo world, of two tables: the four
    cluster objects are numbered 2, 3, 9 and 10. *)
Lemma add_schema_migration_fresh_clusters_witness :
  WF demo_self (demo_heap (demo_flags true false false false))
  /\ exists h',
       add_schema_migration (demo_env SchemaResource DBResource) demo_self
         (demo_resource SchemaResource "source" 100)
         (demo_resource DBResource "target" 101)
         (demo_flags true false false false)
         (demo_heap (demo_flags true false false false)) = (inr tt, h')
       /\ flat_map call_clusters (table_calls (trace h')) = [2; 3; 9; 10].
Proof.
  split; [vm_compute; reflexivity|].
  destruct (add_schema_migration_fresh_clusters
              (demo_env SchemaResource DBResource) demo_self
              (demo_resource SchemaResource "source" 100)
              (demo_resource DBResource "target" 101)
              (demo_flags true false false false)
              (demo_heap (demo_flags true false false false)) eq_refl)
    as (h' & _ & _ & Hrun & _).
  exists h'. split; [exact Hrun|].
  vm_compute in Hrun. injection Hrun as <-. reflexivity.
Defined.

(* ===================================================================== *)
(** ** Further properties of [__init__] *)
(* ===================================================================== *)

(** [__init__], once the configuration is loaded, is the branch on the
    resource classes run after the barriers, followed by the executor. *)
Lemma init_by_dispatch env config_file region_name g h ch :
  loaded env config_file (Some {| s3_region := region_name |}) = inr ch ->
  UnloadCopyTool_init env config_file region_name g h
  = match dispatch env (self_of ch region_name (next_id h))
            (get_source_resource_from_config_helper env ch region_name)
            (get_target_resource_from_config_helper env ch region_name)
            g (after_barriers h g) with
    | (inl e, h') => (inl e, h')
    | (inr _, h') =>
        (inr (self_of ch region_name (next_id h)), logged h' (Run 4 (task_manager h')))
    end.
Proof.
  intros Hl. unfold UnloadCopyTool_init.
  rewrite bind_set_config, bind_ConfigHelper_init, Hl.
  transitivity
    (bind (dispatch env (self_of ch region_name (next_id h))
             (get_source_resource_from_config_helper env ch region_name)
             (get_target_resource_from_config_helper env ch region_name) g)
          (fun _ => bind (run 4) (fun _ => ret (self_of ch region_name (next_id h))))
          (after_barriers h g)); [reflexivity|].
  unfold bind.
  destruct (dispatch env (self_of ch region_name (next_id h))
             (get_source_resource_from_config_helper env ch region_name)
             (get_target_resource_from_config_helper env ch region_name) g
             (after_barriers h g)) as [[e'|[]] h'']; reflexivity.
Qed.


(** X2.  Whenever [__init__] returns, the graph it hands to the executor
    has no cycle, not even through several pipelines: no task is ordered
    before a task that is ordered before it.  Every edge of that graph
    joins two tasks that are in the graph. *)
Theorem init_graph_acyclic env config_file region_name g h self h' :
  UnloadCopyTool_init env config_file region_name g h = (inr self, h') ->
  (forall a b, TaskManager.precedes (task_manager h') a b ->
               ~ TaskManager.precedes (task_manager h') b a)
  /\ (forall a, ~ TaskManager.precedes (task_manager h') a a)
  /\ (forall a b, In (a, b) (TaskManager.edges (task_manager h')) ->
        exists x y, In x (TaskManager.tasks (task_manager h'))
                    /\ In y (TaskManager.tasks (task_manager h'))
                    /\ task_id x = a /\ task_id y = b).
Proof.
  intros Hinit.
  pose proof (init_outcome env config_file region_name g h) as H. cbv zeta in H.
  destruct (loaded env config_file (Some {| s3_region := region_name |})) as [e|ch];
    [rewrite H in Hinit; discriminate|].
  destruct (supported _ _);
    [|destruct H as (message & H); rewrite H in Hinit; discriminate].
  destruct H as (h1 & new & newE & evs & _ & H & HW & _).
  rewrite H in Hinit. injection Hinit as <- <-.
  change (task_manager (logged h1 (Run 4 (task_manager h1)))) with (task_manager h1).
  set (self := self_of ch region_name (next_id h)) in *.
  split; [|split].
  - apply (WF_precedes_asym self h1 HW).
  - intros a Ha. exact (WF_precedes_asym self h1 HW a a Ha Ha).
  - intros a b Hin. apply WF_Inv in HW.
    pose proof (inv_edges _ _ _ HW) as HE. rewrite Forall_forall in HE.
    specialize (HE _ Hin). unfold edge_okb in HE. simpl in HE.
    rewrite !andb_true_iff in HE. destruct HE as [[Ka Kb] _].
    apply TaskManagerFacts.known_lookup in Ka as [x Hx], Kb as [y Hy].
    apply TaskManagerFacts.lookup_some in Hx as [Hx Hxa], Hy as [Hy Hyb].
    exists x, y. auto.
Qed.

(** X2, for a source database of three tables. *)
Lemma init_graph_acyclic_witness :
  exists self h',
    UnloadCopyTool_init (demo_env DBResource DBResource) "config.json" "eu-west-1"
      (demo_flags true true true true) empty_heap = (inr self, h')
    /\ forall a, ~ TaskManager.precedes (task_manager h') a a.
Proof.
  destruct (UnloadCopyTool_init (demo_env DBResource DBResource) "config.json"
              "eu-west-1" (demo_flags true true true true) empty_heap)
    as [[e|self] h'] eqn:Hinit.
  - exfalso. vm_compute in Hinit. discriminate.
  - exists self, h'. split; [reflexivity|].
    apply (init_graph_acyclic (demo_env DBResource DBResource)
             "config.json" "eu-west-1" (demo_flags true true true true)
             empty_heap self h' Hinit).
Defined.

(** X3.  When the combination of resources is not supported, the fatal
    message logged before [NotImplementedError] names the cause: a source
    of one of the three classes with a destination that is no database
    resource is reported as a wrong destination, a source of none of the
    classes as a wrong source, whatever the destination is. *)
Theorem unsupported_message_names_cause env config_file region_name g h ch :
  loaded env config_file (Some {| s3_region := region_name |}) = inr ch ->
  let source := get_source_resource_from_config_helper env ch region_name in
  let destination := get_target_resource_from_config_helper env ch region_name in
  supported source destination = false ->
  UnloadCopyTool_init env config_file region_name g h
  = (inl NotImplementedError,
     logged (after_barriers h g)
       (Log_fatal
          (if isinstance source TableResource || isinstance source SchemaResource
              || isinstance source DBResource
           then "Destination should be a database resource"
           else "Source is not a Table, this type of unload-copy is currently not supported."))).
Proof.
  intros Hl source destination Hs.
  rewrite (init_by_dispatch env config_file region_name g h ch Hl).
  fold source destination.
  unfold supported in Hs. unfold dispatch.
  destruct (isinstance source TableResource) eqn:Ht.
  - cbn [orb andb] in Hs. rewrite Hs. reflexivity.
  - destruct (isinstance source SchemaResource) eqn:Hsc.
    + cbn [orb andb] in Hs. rewrite Hs. reflexivity.
    + destruct (isinstance source DBResource) eqn:Hdb.
      * cbn [orb andb] in Hs. rewrite Hs. reflexivity.
      * reflexivity.
Qed.

(** X3, for a source of no supported class. *)
Lemma unsupported_message_names_cause_witness :
  UnloadCopyTool_init (demo_env Resource_ DBResource) "config.json" "eu-west-1"
    (demo_flags true true true true) empty_heap
  = (inl NotImplementedError,
     logged (after_barriers empty_heap (demo_flags true true true true))
       (Log_fatal
          "Source is not a Table, this type of unload-copy is currently not supported.")).
Proof.
  apply (unsupported_message_names_cause (demo_env Resource_ DBResource)
           "config.json" "eu-west-1" (demo_flags true true true true) empty_heap
           {| ch_s3_helper := Some {| s3_region := "eu-west-1" |};
              config := demo_config |}); reflexivity.
Defined.

(* ===================================================================== *)
(** ** The destination of a table migration *)
(* ===================================================================== *)

(** The branch of [__init__] for a table source. *)
Lemma dispatch_table env self source destination g h :
  isinstance source TableResource = true ->
  isinstance destination DBResource = true ->
  dispatch env self source destination g h
  = add_table_migration self source
      (let d := if isinstance destination TableResource then destination
                else get_table_resource_from_merging_2_resources env destination source in
       match tableName g with
       | Some name =>
           if String.eqb name "" || String.eqb name "None" then d else set_table d name
       | None => d
       end) g h.
Proof.
  intros Ht Hd. unfold dispatch. rewrite Ht, Hd. cbv zeta.
  destruct (isinstance destination TableResource); simpl negb; cbv iota;
    (destruct (tableName g) as [name|]; [|reflexivity]);
    unfold truthy; destruct (String.eqb name ""); simpl;
    destruct (String.eqb name "None"); reflexivity.
Qed.

(** X4.  In a table migration the destination handed to the pipeline is
    the configured destination if that is a table resource, else the
    destination merged with the source table; its table is replaced by
    [global_config_values['tableName']] exactly when that is a string
    other than the empty one and ['None'].  The copy task loads into that
    resource. *)
Theorem table_name_override env config_file region_name g h ch :
  loaded env config_file (Some {| s3_region := region_name |}) = inr ch ->
  let source := get_source_resource_from_config_helper env ch region_name in
  let destination := get_target_resource_from_config_helper env ch region_name in
  let d := if isinstance destination TableResource then destination
           else get_table_resource_from_merging_2_resources env destination source in
  let target := match tableName g with
                | Some name =>
                    if String.eqb name "" || String.eqb name "None"
                    then d else set_table d name
                | None => d
                end in
  isinstance source TableResource = true ->
  isinstance destination DBResource = true ->
  exists self h',
    UnloadCopyTool_init env config_file region_name g h = (inr self, h')
    /\ table_calls (trace h') = table_calls (trace h) ++ [(source, target)]
    /\ map task_kind (at_stage Copy (TaskManager.tasks (task_manager h')))
       = [CopyDataFromS3Task (effective_destination self target) (staging self source)].
Proof.
  intros Hl source destination d target Ht Hd.
  rewrite (init_by_dispatch env config_file region_name g h ch Hl).
  fold source destination.
  rewrite (dispatch_table env _ source destination g _ Ht Hd).
  cbv zeta. subst target d.
  match goal with
  | |- context [add_table_migration _ source ?t g _] => set (target := t)
  end.
  set (self := self_of ch region_name (next_id h)).
  destruct (add_table_migration_run self source target g (after_barriers h g)
              (WF_after_barriers ch region_name g h))
    as (h' & new & newE & u & c & k & Hrun & _ & Hadd).
  rewrite Hrun. exists self, (logged h' (Run 4 (task_manager h'))).
  split; [reflexivity|].
  destruct Hadd as (Htasks & _ & Htr & _ & _ & _ & Hc & _ & _ & _ & Hkc & _).
  simpl in Htasks, Htr. simpl. rewrite Htr, Htasks, !table_calls_app. simpl.
  rewrite app_nil_r. split; [reflexivity|].
  change (at_stage Copy new) with (at_stage Copy new). rewrite Hc. simpl.
  now rewrite Hkc.
Qed.

(** X4, for a table name given on the command line. *)
Lemma table_name_override_witness :
  exists self h',
    UnloadCopyTool_init (demo_env TableResource DBResource) "config.json" "eu-west-1"
      {| tableName := Some "orders_copy"; connectionPreTest := false;
         destinationTablePreTest := false; sourceTablePreTest := false;
         destinationTableAutoCreate := false |} empty_heap = (inr self, h')
    /\ map (fun c => table (snd c)) (table_calls (trace h')) = ["orders_copy"].
Proof.
  destruct (table_name_override (demo_env TableResource DBResource)
              "config.json" "eu-west-1"
              {| tableName := Some "orders_copy"; connectionPreTest := false;
                 destinationTablePreTest := false; sourceTablePreTest := false;
                 destinationTableAutoCreate := false |} empty_heap
              {| ch_s3_helper := Some {| s3_region := "eu-west-1" |};
                 config := demo_config |} eq_refl eq_refl eq_refl)
    as (self & h' & Hinit & Hcalls & _).
  exists self, h'. split; [exact Hinit|].
  rewrite Hcalls. reflexivity.
Defined.

(* ===================================================================== *)
(** ** The size and the checks of one pipeline *)
(* ===================================================================== *)

Lemma length_by_stage l :
  List.length l
  = List.length (at_stage Barrier l) + List.length (at_stage ClusterPreTest l)
    + List.length (at_stage ResourcePreTest l) + List.length (at_stage Creation l)
    + List.length (at_stage Unload l) + List.length (at_stage Copy l)
    + List.length (at_stage Cleanup l).
Proof.
  unfold at_stage. induction l as [|t l IH]; [reflexivity|].
  simpl. destruct (stage t); simpl; lia.
Qed.



Lemma in_kinds_at_stage k st new :
  In k (map task_kind (at_stage st new)) -> exists t, In t new /\ task_kind t = k.
Proof.
  intros H. apply in_map_iff in H as [t [Hk Hin]].
  apply at_stage_in in Hin as [Hin _]. eauto.
Qed.

(** X6.  With [connectionPreTest] on, every pipeline holds a task that
    checks its destination and a task that checks its source, whatever the
    other flags are: the cluster check of that side, or the table pre-test
    that stands for it. *)
Theorem connection_pre_test_covers_both_sides self source destination g h :
  WF self h ->
  connectionPreTest g = true ->
  exists h' new,
    add_table_migration self source destination g h = (inr tt, h')
    /\ TaskManager.tasks (task_manager h') = TaskManager.tasks (task_manager h) ++ new
    /\ (exists t, In t new
                  /\ (task_kind t = FailIfResourceClusterDoesNotExistsTask
                                      (effective_destination self destination)
                      \/ task_kind t = FailIfResourceDoesNotExistsTask
                                         (effective_destination self destination)))
    /\ (exists t, In t new
                  /\ (task_kind t = FailIfResourceClusterDoesNotExistsTask source
                      \/ task_kind t = FailIfResourceDoesNotExistsTask source)).
Proof.
  intros HW Hcp.
  destruct (add_table_migration_run self source destination g h HW)
    as (h' & new & newE & u & c & k & Hrun & _ & Hadd).
  destruct Hadd as (Ht & _ & _ & _ & _ & _ & _ & _ & _ & _ & _ & _ & _ & _ & _
                    & Hcl & Hre & _).
  exists h', new. split; [assumption|]. split; [assumption|].
  rewrite Hcp in Hcl. cbn [andb] in Hcl.
  split.
  - destruct (destinationTablePreTest g) eqn:Hdp.
    + destruct (destinationTableAutoCreate g) eqn:Hac.
      * destruct (in_kinds_at_stage
                    (FailIfResourceClusterDoesNotExistsTask
                       (effective_destination self destination))
                    ClusterPreTest new) as (t & Hin & Hk).
        { rewrite Hcl. simpl. apply in_or_app. right. simpl. auto. }
        exists t. auto.
      * destruct (in_kinds_at_stage
                    (FailIfResourceDoesNotExistsTask
                       (effective_destination self destination))
                    ResourcePreTest new) as (t & Hin & Hk).
        { rewrite Hre. simpl. auto. }
        exists t. auto.
    + destruct (in_kinds_at_stage
                  (FailIfResourceClusterDoesNotExistsTask
                     (effective_destination self destination))
                  ClusterPreTest new) as (t & Hin & Hk).
      { rewrite Hcl. simpl. auto. }
      exists t. auto.
  - destruct (sourceTablePreTest g) eqn:Hsp.
    + destruct (in_kinds_at_stage (FailIfResourceDoesNotExistsTask source)
                  ResourcePreTest new) as (t & Hin & Hk).
      { rewrite Hre. apply in_or_app. right. simpl. auto. }
      exists t. auto.
    + destruct (in_kinds_at_stage (FailIfResourceClusterDoesNotExistsTask source)
                  ClusterPreTest new) as (t & Hin & Hk).
      { rewrite Hcl. apply in_or_app. right. apply in_or_app. left. simpl. auto. }
      exists t. auto.
Qed.

(** X6, for a call with the destination pre-test on and the source
    pre-test off. *)
Lemma connection_pre_test_covers_both_sides_witness :
  WF demo_self (demo_heap (demo_flags true true false false))
  /\ connectionPreTest (demo_flags true true false false) = true
  /\ exists h',
       add_table_migration demo_self
         (demo_resource TableResource "source" 100)
         (demo_resource TableResource "target" 101)
         (demo_flags true true false false)
         (demo_heap (demo_flags true true false false)) = (inr tt, h').
Proof.
  split; [vm_compute; reflexivity|]. split; [reflexivity|].
  destruct (connection_pre_test_covers_both_sides demo_self
              (demo_resource TableResource "source" 100)
              (demo_resource TableResource "target" 101)
              (demo_flags true true false false)
              (demo_heap (demo_flags true true false false)) eq_refl eq_refl)
    as (h' & _ & Hrun & _).
  exists h'. exact Hrun.
Defined.

(* ===================================================================== *)
(** ** Sources with nothing to migrate *)
(* ===================================================================== *)




(* ===================================================================== *)
(** ** The shape of the graph is kept *)
(* ===================================================================== *)

Lemma NoDup_snoc (l : list nat) x : NoDup l -> ~ In x l -> NoDup (l ++ [x]).
Proof.
  induction 1 as [|a l Ha Hl IH]; intros Hx; simpl.
  - constructor; [auto|constructor].
  - constructor.
    + intros Hin. apply in_app_or in Hin as [Hin|[<-|[]]]; [contradiction|].
      apply Hx. simpl. auto.
    + apply IH. intros Hin. apply Hx. simpl. auto.
Qed.

Lemma list_sum_snoc l x : list_sum (l ++ [x]) = list_sum l + x.
Proof. rewrite list_sum_app. simpl. lia. Qed.

(** One insertion keeps the shape: the task is new, it comes with as many
    edges as its stage has, and each of them is of one of the six kinds. *)
Lemma shape_push self h k D S :
  WF self h ->
  shape self (task_manager h) ->
  List.length D + List.length S = degree (stage_of k) ->
  (forall d, In d D ->
     In d (TaskManager.tasks (task_manager h))
     /\ link self d {| task_id := next_id h; task_kind := k |}) ->
  (forall s, In s S ->
     In s (TaskManager.tasks (task_manager h))
     /\ link self {| task_id := next_id h; task_kind := k |} s) ->
  shape self (task_manager (push h k D S)).
Proof.
  intros HW (Hnd & Hlen & Hlink) Hdeg HD HS.
  apply WF_Inv in HW. pose proof (inv_ids _ _ _ HW) as Hids.
  unfold shape, push. simpl. split; [|split].
  - rewrite map_app. simpl. apply NoDup_snoc; [assumption|].
    intros Hin. apply in_map_iff in Hin as [x [Hx Hin]].
    rewrite Forall_forall in Hids. specialize (Hids x Hin). lia.
  - rewrite !length_app, !length_map, map_app, list_sum_app. simpl.
    unfold stage at 2. simpl. lia.
  - rewrite !Forall_app. split; [|split].
    + eapply Forall_impl; [|exact Hlink]. simpl.
      intros e (x & y & Hx & Hy & Hxe & Hye & Hl).
      exists x, y. repeat split; auto; apply in_or_app; auto.
    + apply Forall_forall. intros e He. apply in_map_iff in He as [d [<- Hd]].
      destruct (HD d Hd) as [Hin Hl].
      exists d, {| task_id := next_id h; task_kind := k |}. simpl.
      repeat split; auto; apply in_or_app; simpl; auto.
    + apply Forall_forall. intros e He. apply in_map_iff in He as [s [<- Hs]].
      destruct (HS s Hs) as [Hin Hl].
      exists {| task_id := next_id h; task_kind := k |}, s. simpl.
      repeat split; auto; apply in_or_app; simpl; auto.
Qed.

Lemma WF_b1_in self h : WF self h ->
  In (barrier_after_all_cluster_pre_tests self) (TaskManager.tasks (task_manager h)).
Proof. intros H. apply WF_Inv in H. exact (Inv_b1_in self _ _ H). Qed.

Lemma WF_b2_in self h : WF self h ->
  In (barrier_after_all_resource_pre_tests self) (TaskManager.tasks (task_manager h)).
Proof. intros H. apply WF_Inv in H. exact (Inv_b2_in self _ _ H). Qed.

Lemma lookup_in tm i t :
  TaskManager.lookup tm i = Some t -> In t (TaskManager.tasks tm).
Proof. intros H. apply (TaskManagerFacts.lookup_some tm i t H). Qed.

(** The edges of one call of [add_task], each between two tasks of the
    graph and of one of the six kinds. *)
Ltac link_solve self :=
  intros ? [<-|[]]; split;
  [ first [ apply WF_b1_in; assumption
          | apply WF_b2_in; assumption
          | eapply lookup_in; eassumption ]
  | first [ eapply link_cluster_barrier; reflexivity
          | eapply link_barrier_check; simpl; solve [auto]
          | eapply link_check_barrier; simpl; solve [auto]
          | eapply link_barrier_unload; reflexivity
          | eapply link_unload_copy; [|reflexivity]; reflexivity
          | eapply link_copy_cleanup; reflexivity ] ].

Ltac shape_chain self :=
  repeat (apply shape_push;
          [ assumption
          |
          | reflexivity
          | first [ link_solve self | intros ? [] ]
          | first [ link_solve self | intros ? [] ] ]).

Lemma add_table_migration_keeps_shape self source destination g h :
  good self h ->
  exists h',
    add_table_migration self source destination g h = (inr tt, h')
    /\ good self h'.
Proof.
  intros [HW HS]. unfold good, add_table_migration.
  fold (effective_destination self destination).
  fold (staging self source).
  set (d := effective_destination self destination).
  set (s3 := staging self source).
  apply (WF_logged self h (Enter_add_table_migration source destination)) in HW.
  change (shape self (task_manager
                        (logged h (Enter_add_table_migration source destination))))
    in HS.
  destruct g as [tn cp dp sp ac].
  cbn [connectionPreTest destinationTablePreTest sourceTablePreTest
       destinationTableAutoCreate].
  destruct cp, dp, sp, ac; cbn [negb andb];
    repeat exec_step self.
  all: eexists; split; [reflexivity|]; split; [assumption|].
  all: shape_chain self.
  all: assumption.
Qed.

Lemma good_logged self h e : good self h -> good self (logged h e).
Proof. intros [HW HS]. split; [apply WF_logged; exact HW | exact HS]. Qed.

Lemma good_bump self h : good self h -> good self (bump h).
Proof. intros [HW HS]. split; [apply WF_bump; exact HW | exact HS]. Qed.

(** A loop keeps what its body keeps. *)
Lemma for_each_keeps {A} (I : Heap -> Prop) (body : A -> M unit) xs :
  (forall x h, I h -> exists h', body x h = (inr tt, h') /\ I h') ->
  forall h, I h -> exists h', for_each xs body h = (inr tt, h') /\ I h'.
Proof.
  intros Hbody. induction xs as [|x xs IH]; intros h Hh.
  - exists h. auto.
  - simpl. destruct (Hbody x h Hh) as (h1 & Hrun & H1).
    rewrite (bind_run _ _ _ _ _ Hrun). apply IH. exact H1.
Qed.

Lemma add_schema_migration_keeps_shape env self source destination g h :
  good self h ->
  exists h',
    add_schema_migration env self source destination g h = (inr tt, h')
    /\ good self h'.
Proof.
  intros Hg. unfold add_schema_migration. rewrite bind_emit.
  apply (for_each_keeps (good self)); [|apply good_logged; exact Hg].
  intros table h0 H0.
  rewrite bind_get_cluster, bind_get_cluster.
  apply add_table_migration_keeps_shape. now apply good_bump, good_bump.
Qed.

Lemma add_database_migration_keeps_shape env self source destination g h :
  good self h ->
  exists h',
    add_database_migration env self source destination g h = (inr tt, h')
    /\ good self h'.
Proof.
  intros Hg. unfold add_database_migration. rewrite bind_emit.
  apply (for_each_keeps (good self)); [|apply good_logged; exact Hg].
  intros schema h0 H0. now apply add_schema_migration_keeps_shape.
Qed.

Lemma dispatch_keeps_shape env self source destination g h :
  good self h -> supported source destination = true ->
  exists h', dispatch env self source destination g h = (inr tt, h') /\ good self h'.
Proof.
  intros Hg Hs. unfold supported in Hs. apply andb_true_iff in Hs as [Hsrc Hdst].
  unfold dispatch. rewrite Hdst.
  destruct (isinstance source TableResource) eqn:Ht.
  - apply add_table_migration_keeps_shape. exact Hg.
  - destruct (isinstance source SchemaResource) eqn:Hsc.
    + simpl negb. cbv iota. rewrite bind_ret.
      now apply add_schema_migration_keeps_shape.
    + cbn [orb] in Hsrc. rewrite Hsrc. simpl negb. cbv iota. rewrite bind_ret.
      now apply add_database_migration_keeps_shape.
Qed.

Lemma good_after_barriers ch region_name g h :
  good (self_of ch region_name (next_id h)) (after_barriers h g).
Proof.
  split; [apply WF_after_barriers|].
  unfold shape. simpl. split; [|split].
  - constructor.
    + simpl. intros [E|[]]. lia.
    + constructor; [intros []|constructor].
  - reflexivity.
  - constructor.
Qed.

(** Whenever [__init__] returns, the graph it has run is of the shape, and
    [self] can still build on the heap before the run. *)
Lemma init_returns_good env config_file region_name g h self h' :
  UnloadCopyTool_init env config_file region_name g h = (inr self, h') ->
  exists h1, h' = logged h1 (Run 4 (task_manager h1)) /\ good self h1.
Proof.
  intros Hinit.
  pose proof (init_outcome env config_file region_name g h) as H. cbv zeta in H.
  destruct (loaded env config_file (Some {| s3_region := region_name |}))
    as [e|ch] eqn:Hl; [rewrite H in Hinit; discriminate|].
  destruct (supported _ _) eqn:Hs;
    [|destruct H as (message & H); rewrite H in Hinit; discriminate].
  clear H.
  destruct (dispatch_keeps_shape env (self_of ch region_name (next_id h)) _ _ g
              (after_barriers h g) (good_after_barriers ch region_name g h) Hs)
    as (h1 & Hrun & Hg).
  rewrite (init_by_dispatch env config_file region_name g h ch Hl), Hrun in Hinit.
  injection Hinit as <- <-. exists h1. auto.
Qed.

Lemma degree_sum l :
  list_sum (map (fun t => degree (stage t)) l)
  = List.length (at_stage ClusterPreTest l)
    + 2 * List.length (at_stage ResourcePreTest l)
    + 2 * List.length (at_stage Creation l)
    + List.length (at_stage Unload l) + List.length (at_stage Copy l)
    + List.length (at_stage Cleanup l).
Proof.
  unfold at_stage. induction l as [|t l IH]; [reflexivity|].
  simpl. destruct (stage t); simpl; lia.
Qed.

(* ===================================================================== *)
(** ** The graph that is run *)
(* ===================================================================== *)

Lemma unique_by_handle (l : list Task) x y :
  NoDup (map task_id l) -> In x l -> In y l -> task_id x = task_id y -> x = y.
Proof.
  induction l as [|a l IH]; simpl; intros Hnd Hx Hy E; [contradiction|].
  inversion Hnd as [|? ? Ha Hl]; subst.
  destruct Hx as [<-|Hx], Hy as [<-|Hy]; auto.
  - exfalso. apply Ha. rewrite E. now apply in_map.
  - exfalso. apply Ha. rewrite <- E. now apply in_map.
Qed.

Lemma lookup_own tm t :
  NoDup (map task_id (TaskManager.tasks tm)) -> In t (TaskManager.tasks tm) ->
  TaskManager.lookup tm (task_id t) = Some t.
Proof.
  intros Hnd Hin.
  destruct (TaskManager.lookup tm (task_id t)) as [x|] eqn:Hx.
  - apply TaskManagerFacts.lookup_some in Hx as [Hx E].
    f_equal. now apply (unique_by_handle (TaskManager.tasks tm)).
  - exfalso. unfold TaskManager.lookup in Hx.
    apply (find_none _ _ Hx) in Hin. simpl in Hin.
    now rewrite Nat.eqb_refl in Hin.
Qed.

(** X8.  Whenever [__init__] returns, no two tasks of the graph share a
    handle, and looking a task of the graph up by its handle gives that
    task back. *)
Theorem init_handles_unique env config_file region_name g h self h' :
  UnloadCopyTool_init env config_file region_name g h = (inr self, h') ->
  NoDup (map task_id (TaskManager.tasks (task_manager h')))
  /\ (forall t, In t (TaskManager.tasks (task_manager h')) ->
        TaskManager.lookup (task_manager h') (task_id t) = Some t).
Proof.
  intros Hinit.
  destruct (init_returns_good env config_file region_name g h self h' Hinit)
    as (h1 & -> & _ & Hnd & _).
  simpl. split; [exact Hnd|]. intros t Ht. now apply lookup_own.
Qed.

(** X8, for a source database of three tables. *)
Lemma init_handles_unique_witness :
  exists self h',
    UnloadCopyTool_init (demo_env DBResource DBResource) "config.json" "eu-west-1"
      (demo_flags true true true true) empty_heap = (inr self, h')
    /\ NoDup (map task_id (TaskManager.tasks (task_manager h'))).
Proof.
  destruct (UnloadCopyTool_init (demo_env DBResource DBResource) "config.json"
              "eu-west-1" (demo_flags true true true true) empty_heap)
    as [[e|self] h'] eqn:Hinit.
  - exfalso. vm_compute in Hinit. discriminate.
  - exists self, h'. split; [reflexivity|].
    apply (init_handles_unique (demo_env DBResource DBResource)
             "config.json" "eu-west-1" (demo_flags true true true true)
             empty_heap self h' Hinit).
Defined.

(** X9.  Whenever [__init__] returns, the graph has one edge for each
    cluster check, unload, copy and cleanup task and two for each resource
    check and creation task, and no other: the number of edges is linear
    in the number of tasks, at most twice the tasks that are not
    barriers. *)
Theorem init_edge_count env config_file region_name g h self h' :
  UnloadCopyTool_init env config_file region_name g h = (inr self, h') ->
  let ts := TaskManager.tasks (task_manager h') in
  List.length (TaskManager.edges (task_manager h'))
  = List.length (at_stage ClusterPreTest ts)
    + 2 * List.length (at_stage ResourcePreTest ts)
    + 2 * List.length (at_stage Creation ts)
    + List.length (at_stage Unload ts) + List.length (at_stage Copy ts)
    + List.length (at_stage Cleanup ts)
  /\ List.length (TaskManager.edges (task_manager h')) <= 2 * (List.length ts - 2).
Proof.
  intros Hinit ts. subst ts.
  destruct (init_returns_good env config_file region_name g h self h' Hinit)
    as (h1 & -> & HW & _ & Hlen & _).
  simpl. rewrite Hlen, degree_sum. split; [reflexivity|].
  destruct (WF_layout self h1 HW) as (rest & Hl & Hb).
  rewrite (length_by_stage (TaskManager.tasks (task_manager h1))).
  rewrite Hl. unfold at_stage in *. simpl.
  apply WF_Inv in HW.
  assert (E1 : stage (barrier_after_all_cluster_pre_tests self) = Barrier)
    by (apply stage_barrier, (inv_b1 _ _ _ HW)).
  assert (E2 : stage (barrier_after_all_resource_pre_tests self) = Barrier)
    by (apply stage_barrier, (inv_b2 _ _ _ HW)).
  rewrite E1, E2. simpl. rewrite Hb. simpl. lia.
Qed.

(** X9, for a source database of three tables and every flag on: three
    pipelines of six tasks and eight edges each. *)
Lemma init_edge_count_witness :
  exists self h',
    UnloadCopyTool_init (demo_env DBResource DBResource) "config.json" "eu-west-1"
      (demo_flags true true true true) empty_heap = (inr self, h')
    /\ List.length (TaskManager.edges (task_manager h'))
       <= 2 * (List.length (TaskManager.tasks (task_manager h')) - 2).
Proof.
  destruct (UnloadCopyTool_init (demo_env DBResource DBResource) "config.json"
              "eu-west-1" (demo_flags true true true true) empty_heap)
    as [[e|self] h'] eqn:Hinit.
  - exfalso. vm_compute in Hinit. discriminate.
  - exists self, h'. split; [reflexivity|].
    apply (init_edge_count (demo_env DBResource DBResource)
             "config.json" "eu-west-1" (demo_flags true true true true)
             empty_heap self h' Hinit).
Defined.

(** X10.  Whenever [__init__] returns, every edge of the graph joins two
    tasks of the graph and is of one of the six kinds
    [add_table_migration] adds: cluster check to first barrier, first
    barrier to resource check or creation task, those to the second
    barrier, second barrier to unload, unload to the copy of the same
    staging area, copy to the cleanup of the same staging area.  No edge
    joins the tasks of two pipelines but through a barrier. *)
Theorem init_edges_of_six_kinds env config_file region_name g h self h' :
  UnloadCopyTool_init env config_file region_name g h = (inr self, h') ->
  forall a b, In (a, b) (TaskManager.edges (task_manager h')) ->
    exists x y,
      In x (TaskManager.tasks (task_manager h'))
      /\ In y (TaskManager.tasks (task_manager h'))
      /\ task_id x = a /\ task_id y = b /\ link self x y.
Proof.
  intros Hinit a b Hin.
  destruct (init_returns_good env config_file region_name g h self h' Hinit)
    as (h1 & -> & _ & _ & _ & Hlink).
  simpl in *. rewrite Forall_forall in Hlink.
  exact (Hlink (a, b) Hin).
Qed.

(** X10, for a source database of three tables. *)
Lemma init_edges_of_six_kinds_witness :
  exists self h',
    UnloadCopyTool_init (demo_env DBResource DBResource) "config.json" "eu-west-1"
      (demo_flags true true true true) empty_heap = (inr self, h')
    /\ forall a b, In (a, b) (TaskManager.edges (task_manager h')) ->
         exists x y, task_id x = a /\ task_id y = b /\ link self x y.
Proof.
  destruct (UnloadCopyTool_init (demo_env DBResource DBResource) "config.json"
              "eu-west-1" (demo_flags true true true true) empty_heap)
    as [[e|self] h'] eqn:Hinit.
  - exfalso. vm_compute in Hinit. discriminate.
  - exists self, h'. split; [reflexivity|].
    intros a b Hin.
    destruct (init_edges_of_six_kinds (demo_env DBResource DBResource)
                "config.json" "eu-west-1" (demo_flags true true true true)
                empty_heap self h' Hinit a b Hin)
      as (x & y & _ & _ & Hx & Hy & Hl).
    exists x, y. auto.
Defined.

(** What is known of the class of a task decides the case. *)
Ltac by_kind :=
  intros;
  repeat match goal with
         | H : _ \/ _ |- _ => destruct H
         | |- _ <> _ => intros ?
         end;
  repeat match goal with
         | H : task_kind ?t = _, H' : context [task_kind ?t] |- _ =>
             rewrite H in H'; simpl in H'
         end;
  repeat match goal with
         | H : CopyDataFromS3Task _ _ = CopyDataFromS3Task _ _ |- _ =>
             injection H as ? ?; subst
         | H : CleanupS3StagingAreaTask _ = CleanupS3StagingAreaTask _ |- _ =>
             injection H as ?; subst
         end;
  try discriminate; try congruence; auto.

(** The dependencies of a task of a well-shaped graph, by its class. *)
Lemma dependencies_by_class self h a t :
  good self h ->
  In t (TaskManager.tasks (task_manager h)) ->
  In (a, task_id t) (TaskManager.edges (task_manager h)) ->
  (forall r, task_kind t <> FailIfResourceClusterDoesNotExistsTask r)
  /\ (stage t = ResourcePreTest \/ stage t = Creation ->
      a = task_id (barrier_after_all_cluster_pre_tests self))
  /\ (forall s s3, task_kind t = UnloadDataToS3Task s s3 ->
        a = task_id (barrier_after_all_resource_pre_tests self))
  /\ (forall d s3, task_kind t = CopyDataFromS3Task d s3 ->
        exists u, In u (TaskManager.tasks (task_manager h)) /\ task_id u = a
                  /\ task_kind u = UnloadDataToS3Task (s3_source s3) s3)
  /\ (forall s3, task_kind t = CleanupS3StagingAreaTask s3 ->
        exists c d, In c (TaskManager.tasks (task_manager h)) /\ task_id c = a
                    /\ task_kind c = CopyDataFromS3Task d s3).
Proof.
  intros [HW (Hnd & _ & Hlink)] Ht Hin.
  rewrite Forall_forall in Hlink.
  destruct (Hlink (a, task_id t) Hin) as (x & y & Hx & Hy & Hxa & Hyt & Hl).
  simpl in Hxa, Hyt.
  assert (y = t) by (now apply (unique_by_handle (TaskManager.tasks (task_manager h)))).
  subst y. apply WF_Inv in HW.
  pose proof (inv_b1 _ _ _ HW) as K1. pose proof (inv_b2 _ _ _ HW) as K2.
  unfold stage.
  inversion Hl as [t0 r Hk E1 E2 | t0 Hs E1 E2 | t0 Hs E1 E2 | t0 s0 s30 Hk E1 E2
                  | u0 c0 d0 s30 Hku Hkc E1 E2 | c0 k0 d0 s30 Hkc Hkk E1 E2];
    subst; unfold stage in *; repeat split; by_kind.
  - exists x. auto.
  - exists x, d0. auto.
Qed.

(** X11.  Whenever [__init__] returns, in the graph that is run: a
    cluster check depends on nothing; a resource check or creation task
    depends on the first barrier alone; an unload task on the second
    barrier alone; every dependency of a copy task is an unload task that
    exports the source of the copy's own staging area into it; every
    dependency of a cleanup task is a copy task of the cleanup's own
    staging area. *)
Theorem init_dependencies_by_class env config_file region_name g h self h' :
  UnloadCopyTool_init env config_file region_name g h = (inr self, h') ->
  forall a t,
    In t (TaskManager.tasks (task_manager h')) ->
    In (a, task_id t) (TaskManager.edges (task_manager h')) ->
    (forall r, task_kind t <> FailIfResourceClusterDoesNotExistsTask r)
    /\ (stage t = ResourcePreTest \/ stage t = Creation ->
        a = task_id (barrier_after_all_cluster_pre_tests self))
    /\ (forall s s3, task_kind t = UnloadDataToS3Task s s3 ->
          a = task_id (barrier_after_all_resource_pre_tests self))
    /\ (forall d s3, task_kind t = CopyDataFromS3Task d s3 ->
          exists u, In u (TaskManager.tasks (task_manager h')) /\ task_id u = a
                    /\ task_kind u = UnloadDataToS3Task (s3_source s3) s3)
    /\ (forall s3, task_kind t = CleanupS3StagingAreaTask s3 ->
          exists c d, In c (TaskManager.tasks (task_manager h')) /\ task_id c = a
                      /\ task_kind c = CopyDataFromS3Task d s3).
Proof.
  intros Hinit a t Ht Hin.
  destruct (init_returns_good env config_file region_name g h self h' Hinit)
    as (h1 & -> & Hg).
  simpl in *. now apply (dependencies_by_class self h1 a t Hg).
Qed.

(** X11, for a source database of three tables. *)
Lemma init_dependencies_by_class_witness :
  exists self h',
    UnloadCopyTool_init (demo_env DBResource DBResource) "config.json" "eu-west-1"
      (demo_flags true true true true) empty_heap = (inr self, h')
    /\ forall a t,
         In t (TaskManager.tasks (task_manager h')) ->
         In (a, task_id t) (TaskManager.edges (task_manager h')) ->
         forall s s3, task_kind t = UnloadDataToS3Task s s3 ->
           a = task_id (barrier_after_all_resource_pre_tests self).
Proof.
  destruct (UnloadCopyTool_init (demo_env DBResource DBResource) "config.json"
              "eu-west-1" (demo_flags true true true true) empty_heap)
    as [[e|self] h'] eqn:Hinit.
  - exfalso. vm_compute in Hinit. discriminate.
  - exists self, h'. split; [reflexivity|].
    intros a t Ht Hin.
    destruct (init_dependencies_by_class (demo_env DBResource DBResource)
                "config.json" "eu-west-1" (demo_flags true true true true)
                empty_heap self h' Hinit a t Ht Hin)
      as (_ & _ & Hu & _).
    exact Hu.
Defined.

(* ===================================================================== *)
(** ** Pipelines do not order one another's transfers *)
(* ===================================================================== *)

(** The order, read from its last edge. *)
Lemma precedes_last tm a c :
  TaskManager.precedes tm a c ->
  In (a, c) (TaskManager.edges tm)
  \/ exists b, TaskManager.precedes tm a b /\ In (b, c) (TaskManager.edges tm).
Proof.
  induction 1 as [a c H|a b c H _ IH].
  - left. assumption.
  - right. destruct IH as [IH|(b' & Hp & He)].
    + exists b. split; [now apply TaskManager.precedes_edge | assumption].
    + exists b'. split; [|assumption].
      eapply TaskManager.precedes_step; eassumption.
Qed.

Lemma hrank_own self h t :
  good self h -> In t (TaskManager.tasks (task_manager h)) ->
  stage t <> Barrier ->
  hrank self (task_manager h) (task_id t) = stage_rank (stage t).
Proof.
  intros [HW (Hnd & _)] Ht Hs.
  pose proof (lookup_own (task_manager h) t Hnd Ht) as Hl.
  unfold hrank. rewrite Hl. apply WF_Inv in HW.
  now apply (rank_known self (task_manager h) (next_id h) t HW Hl).
Qed.

Lemma hrank_gate self h :
  good self h ->
  hrank self (task_manager h) (task_id (barrier_after_all_resource_pre_tests self)) = 3.
Proof.
  intros [HW _]. apply WF_Inv in HW. unfold hrank.
  rewrite (Inv_lookup_b2 self _ _ HW). apply (rank_b2 self _ _ HW).
Qed.

(** An unload task is ordered before a copy task only by the edge to its
    own copy task. *)
Lemma unload_before_copy self h u t s s3 d s3' :
  good self h ->
  In u (TaskManager.tasks (task_manager h)) ->
  In t (TaskManager.tasks (task_manager h)) ->
  task_kind u = UnloadDataToS3Task s s3 ->
  task_kind t = CopyDataFromS3Task d s3' ->
  TaskManager.precedes (task_manager h) (task_id u) (task_id t) ->
  s3' = s3 /\ In (task_id u, task_id t) (TaskManager.edges (task_manager h)).
Proof.
  intros Hg Hu Ht Hku Hkt Hp.
  assert (Hnd : NoDup (map task_id (TaskManager.tasks (task_manager h))))
    by apply Hg.
  assert (Hru : hrank self (task_manager h) (task_id u) = 4).
  { rewrite (hrank_own self h u Hg Hu); unfold stage; rewrite Hku;
      [reflexivity | discriminate]. }
  apply precedes_last in Hp as [He|(b & Hp & He)].
  - split; [|assumption].
    destruct (dependencies_by_class self h _ t Hg Ht He) as (_ & _ & _ & Hc & _).
    destruct (Hc d s3' Hkt) as (u' & Hu' & Hid & Hk').
    assert (u' = u) by (now apply (unique_by_handle (TaskManager.tasks (task_manager h)))).
    subst u'. congruence.
  - exfalso.
    destruct (dependencies_by_class self h _ t Hg Ht He) as (_ & _ & _ & Hc & _).
    destruct (Hc d s3' Hkt) as (u' & Hu' & <- & Hk').
    assert (Hgate : hrank self (task_manager h) (task_id u)
                    <= hrank self (task_manager h)
                         (task_id (barrier_after_all_resource_pre_tests self))).
    { apply precedes_last in Hp as [He'|(b' & Hp' & He')].
      - destruct (dependencies_by_class self h _ u' Hg Hu' He') as (_ & _ & Hun & _).
        rewrite (Hun _ _ Hk'). lia.
      - destruct (dependencies_by_class self h _ u' Hg Hu' He') as (_ & _ & Hun & _).
        rewrite <- (Hun _ _ Hk').
        apply Nat.lt_le_incl. apply (WF_precedes_rank self h (proj1 Hg)). exact Hp'. }
    rewrite (hrank_gate self h Hg), Hru in Hgate. lia.
Qed.

(** X12.  Whenever [__init__] returns, the pipelines do not order one
    another's transfers: if an unload task is ordered before a copy or a
    cleanup task, that task works on the unload task's own staging area. *)
Theorem init_pipelines_isolated env config_file region_name g h self h' :
  UnloadCopyTool_init env config_file region_name g h = (inr self, h') ->
  forall u t s s3,
    In u (TaskManager.tasks (task_manager h')) ->
    In t (TaskManager.tasks (task_manager h')) ->
    task_kind u = UnloadDataToS3Task s s3 ->
    TaskManager.precedes (task_manager h') (task_id u) (task_id t) ->
    (forall d s3', task_kind t = CopyDataFromS3Task d s3' -> s3' = s3)
    /\ (forall s3', task_kind t = CleanupS3StagingAreaTask s3' -> s3' = s3).
Proof.
  intros Hinit u t s s3 Hu Ht Hku Hp.
  destruct (init_returns_good env config_file region_name g h self h' Hinit)
    as (h1 & -> & Hg).
  simpl in *. split.
  - intros d s3' Hkt.
    apply (unload_before_copy self h1 u t s s3 d s3' Hg Hu Ht Hku Hkt Hp).
  - intros s3' Hkt.
    assert (Hnd : NoDup (map task_id (TaskManager.tasks (task_manager h1))))
      by apply Hg.
    apply precedes_last in Hp as [He|(b & Hp & He)].
    + exfalso.
      destruct (dependencies_by_class self h1 _ t Hg Ht He) as (_ & _ & _ & _ & Hcl).
      destruct (Hcl s3' Hkt) as (c & d & Hc & Hid & Hkc).
      assert (c = u) by (now apply (unique_by_handle (TaskManager.tasks (task_manager h1)))).
      subst c. congruence.
    + destruct (dependencies_by_class self h1 _ t Hg Ht He) as (_ & _ & _ & _ & Hcl).
      destruct (Hcl s3' Hkt) as (c & d & Hc & <- & Hkc).
      apply (unload_before_copy self h1 u c s s3 d s3' Hg Hu Hc Hku Hkc Hp).
Qed.

(** X12, for a source database of three tables. *)
Lemma init_pipelines_isolated_witness :
  exists self h',
    UnloadCopyTool_init (demo_env DBResource DBResource) "config.json" "eu-west-1"
      (demo_flags true true true true) empty_heap = (inr self, h')
    /\ forall u t s s3,
         In u (TaskManager.tasks (task_manager h')) ->
         In t (TaskManager.tasks (task_manager h')) ->
         task_kind u = UnloadDataToS3Task s s3 ->
         TaskManager.precedes (task_manager h') (task_id u) (task_id t) ->
         forall d s3', task_kind t = CopyDataFromS3Task d s3' -> s3' = s3.
Proof.
  destruct (UnloadCopyTool_init (demo_env DBResource DBResource) "config.json"
              "eu-west-1" (demo_flags true true true true) empty_heap)
    as [[e|self] h'] eqn:Hinit.
  - exfalso. vm_compute in Hinit. discriminate.
  - exists self, h'. split; [reflexivity|].
    intros u t s s3 Hu Ht Hku Hp.
    apply (init_pipelines_isolated (demo_env DBResource DBResource)
             "config.json" "eu-west-1" (demo_flags true true true true)
             empty_heap self h' Hinit u t s s3 Hu Ht Hku Hp).
Defined.

(* ===================================================================== *)
(** ** Where the gate holds in full *)
(* ===================================================================== *)

Lemma linked_after_table self source destination g h :
  destinationTablePreTest g || sourceTablePreTest g || destinationTableAutoCreate g
  = true ->
  linked_or_bare self h ->
  exists h',
    add_table_migration self source destination g h = (inr tt, h')
    /\ linked_or_bare self h'.
Proof.
  intros Hf [HW _].
  destruct (add_table_migration_run self source destination g h HW)
    as (h' & new & newE & u & c & k & Hrun & HW' & Hadd).
  destruct Hadd as (Ht & _ & _ & _ & _ & _ & _ & _ & _ & _ & _ & _ & _ & _ & _
                    & _ & Hre & Hcr).
  exists h'. split; [assumption|]. split; [assumption|]. right.
  assert (Hm : exists m, In m new /\ (stage m = ResourcePreTest \/ stage m = Creation)).
  { destruct (destinationTableAutoCreate g).
    - destruct (at_stage Creation new) as [|m l] eqn:E; [discriminate|].
      exists m. split; [|right]; apply (at_stage_in Creation m new);
        rewrite E; simpl; auto.
    - destruct (sourceTablePreTest g).
      + destruct (at_stage ResourcePreTest new) as [|m l] eqn:E.
        * destruct (destinationTablePreTest g); discriminate.
        * exists m. split; [|left]; apply (at_stage_in ResourcePreTest m new);
            rewrite E; simpl; auto.
      + destruct (destinationTablePreTest g); [|discriminate].
        destruct (at_stage ResourcePreTest new) as [|m l] eqn:E; [discriminate|].
        exists m. split; [|left]; apply (at_stage_in ResourcePreTest m new);
          rewrite E; simpl; auto. }
  destruct Hm as (m & Hin & Hs). exists m. split; [|assumption].
  rewrite Ht. apply in_or_app. now right.
Qed.

Lemma linked_logged self h e : linked_or_bare self h -> linked_or_bare self (logged h e).
Proof. intros [HW H]. split; [apply WF_logged; exact HW | exact H]. Qed.

Lemma linked_bump self h : linked_or_bare self h -> linked_or_bare self (bump h).
Proof. intros [HW H]. split; [apply WF_bump; exact HW | exact H]. Qed.

Lemma linked_after_dispatch env self source destination g h :
  destinationTablePreTest g || sourceTablePreTest g || destinationTableAutoCreate g
  = true ->
  linked_or_bare self h -> supported source destination = true ->
  exists h',
    dispatch env self source destination g h = (inr tt, h')
    /\ linked_or_bare self h'.
Proof.
  intros Hf Hg Hs. unfold supported in Hs. apply andb_true_iff in Hs as [Hsrc Hdst].
  assert (Hschema : forall src hh, linked_or_bare self hh ->
            exists h', add_schema_migration env self src destination g hh = (inr tt, h')
                       /\ linked_or_bare self h').
  { intros src hh Hhh. unfold add_schema_migration. rewrite bind_emit.
    apply (for_each_keeps (linked_or_bare self)); [|apply linked_logged; exact Hhh].
    intros table h0 H0. rewrite bind_get_cluster, bind_get_cluster.
    apply linked_after_table; [exact Hf|]. now apply linked_bump, linked_bump. }
  unfold dispatch. rewrite Hdst.
  destruct (isinstance source TableResource) eqn:Ht.
  - now apply linked_after_table.
  - destruct (isinstance source SchemaResource) eqn:Hsc.
    + simpl negb. cbv iota. rewrite bind_ret. now apply Hschema.
    + cbn [orb] in Hsrc. rewrite Hsrc. simpl negb. cbv iota. rewrite bind_ret.
      unfold add_database_migration. rewrite bind_emit.
      apply (for_each_keeps (linked_or_bare self)); [|apply linked_logged; exact Hg].
      intros schema h0 H0. now apply Hschema.
Qed.

(** X13.  Whenever [__init__] returns and one of [destinationTablePreTest],
    [sourceTablePreTest] and [destinationTableAutoCreate] is on, the gate
    holds in full: every cluster check, resource check and creation task of
    the graph is ordered before the second barrier and before every
    unload, copy and cleanup task of every pipeline. *)
Theorem init_gate_complete_with_table_flags env config_file region_name g h self h' :
  UnloadCopyTool_init env config_file region_name g h = (inr self, h') ->
  destinationTablePreTest g || sourceTablePreTest g || destinationTableAutoCreate g
  = true ->
  forall p, In p (TaskManager.tasks (task_manager h')) ->
    stage p = ClusterPreTest \/ stage p = ResourcePreTest \/ stage p = Creation ->
    TaskManager.precedes (task_manager h') (task_id p)
      (task_id (barrier_after_all_resource_pre_tests self))
    /\ forall t, In t (TaskManager.tasks (task_manager h')) ->
         stage t = Unload \/ stage t = Copy \/ stage t = Cleanup ->
         TaskManager.precedes (task_manager h') (task_id p) (task_id t).
Proof.
  intros Hinit Hf p Hp Hsp.
  pose proof (init_outcome env config_file region_name g h) as H. cbv zeta in H.
  destruct (loaded env config_file (Some {| s3_region := region_name |}))
    as [e|ch] eqn:Hl; [rewrite H in Hinit; discriminate|].
  destruct (supported _ _) eqn:Hs;
    [|destruct H as (message & H); rewrite H in Hinit; discriminate].
  clear H.
  assert (H0 : linked_or_bare (self_of ch region_name (next_id h)) (after_barriers h g)).
  { split; [apply WF_after_barriers|]. left. reflexivity. }
  destruct (linked_after_dispatch env _ _ _ g _ Hf H0 Hs) as (h1 & Hrun & HW & Hlk).
  rewrite (init_by_dispatch env config_file region_name g h ch Hl), Hrun in Hinit.
  injection Hinit as <- <-.
  set (self := self_of ch region_name (next_id h)) in *.
  change (task_manager (logged h1 (Run 4 (task_manager h1)))) with (task_manager h1)
    in *.
  assert (Hgate : TaskManager.precedes (task_manager h1) (task_id p)
                    (task_id (barrier_after_all_resource_pre_tests self))).
  { destruct Hsp as [Hc|Hm].
    - destruct Hlk as [Hbare|Hm].
      + exfalso. rewrite Hbare in Hp. apply WF_Inv in HW.
        destruct Hp as [<-|[<-|[]]]; unfold stage in Hc;
          [rewrite (inv_b1 _ _ _ HW) in Hc | rewrite (inv_b2 _ _ _ HW) in Hc];
          discriminate.
      + apply (proj2 (proj2 (gate_in_linked_graphs self h1 HW)) Hm p Hp Hc).
    - apply (proj1 (proj2 (gate_in_linked_graphs self h1 HW)) p Hp Hm). }
  split; [exact Hgate|].
  intros t Ht Hst.
  eapply TaskManagerFacts.precedes_trans; [exact Hgate|].
  apply (WF_gate_before_transfer self h1 HW t Ht Hst).
Qed.

(** X13, for a source database of three tables with the source pre-test
    on. *)
Lemma init_gate_complete_with_table_flags_witness :
  exists self h',
    UnloadCopyTool_init (demo_env DBResource DBResource) "config.json" "eu-west-1"
      (demo_flags true false true false) empty_heap = (inr self, h')
    /\ forall p, In p (TaskManager.tasks (task_manager h')) ->
         stage p = ClusterPreTest \/ stage p = ResourcePreTest \/ stage p = Creation ->
         TaskManager.precedes (task_manager h') (task_id p)
           (task_id (barrier_after_all_resource_pre_tests self)).
Proof.
  destruct (UnloadCopyTool_init (demo_env DBResource DBResource) "config.json"
              "eu-west-1" (demo_flags true false true false) empty_heap)
    as [[e|self] h'] eqn:Hinit.
  - exfalso. vm_compute in Hinit. discriminate.
  - exists self, h'. split; [reflexivity|].
    intros p Hp Hs.
    exact (proj1 (init_gate_complete_with_table_flags (demo_env DBResource DBResource)
                    "config.json" "eu-west-1" (demo_flags true false true false)
                    empty_heap self h' Hinit eq_refl p Hp Hs)).
Defined.

(* ===================================================================== *)
(** ** Cluster objects in a database migration *)
(* ===================================================================== *)





(* ===================================================================== *)
(** ** A schema without tables *)
(* ===================================================================== *)

(** X15.  For a source schema that lists no table and a database
    destination, [__init__] returns all the same: it has built no pipeline
    and created no further object, and it has invoked the executor once,
    on a graph that holds the two barriers and no edge. *)
Theorem init_on_schema_without_tables env config_file region_name g h ch :
  loaded env config_file (Some {| s3_region := region_name |}) = inr ch ->
  let source := get_source_resource_from_config_helper env ch region_name in
  let destination := get_target_resource_from_config_helper env ch region_name in
  isinstance source TableResource = false ->
  isinstance source SchemaResource = true ->
  isinstance destination DBResource = true ->
  list_tables env source = [] ->
  UnloadCopyTool_init env config_file region_name g h
  = (inr (self_of ch region_name (next_id h)),
     logged (logged (after_barriers h g)
               (Enter_add_schema_migration source destination))
       (Run 4 (task_manager (after_barriers h g)))).
Proof.
  intros Hl source destination Ht Hs Hd He.
  rewrite (init_by_dispatch env config_file region_name g h ch Hl).
  fold source destination.
  unfold dispatch. rewrite Ht, Hs, Hd. simpl negb. cbv iota. rewrite bind_ret.
  unfold add_schema_migration. rewrite bind_emit, He. reflexivity.
Qed.

(** X15, for a schema of a world without tables. *)
Lemma init_on_schema_without_tables_witness :
  TaskManager.tasks
    (task_manager
       (snd (UnloadCopyTool_init
               {| open_json := fun _ => inr demo_config;
                  get_json_config_as_dict := fun _ _ => inr demo_config;
                  get_source_resource_from_config_helper :=
                    fun _ _ => demo_resource SchemaResource "source" 100;
                  get_target_resource_from_config_helper :=
                    fun _ _ => demo_resource DBResource "target" 101;
                  get_table_resource_from_merging_2_resources := fun a _ => a;
                  list_schemas := fun _ => [];
                  list_tables := fun _ => [] |}
               "config.json" "eu-west-1" (demo_flags true true true true)
               empty_heap)))
  = [ {| task_id := 0; task_kind := NoOperationTask |};
      {| task_id := 1; task_kind := NoOperationTask |} ].
Proof.
  rewrite (init_on_schema_without_tables _ "config.json" "eu-west-1"
             (demo_flags true true true true) empty_heap
             {| ch_s3_helper := Some {| s3_region := "eu-west-1" |};
                config := demo_config |}); reflexivity.
Defined.

(* ===================================================================== *)
(** ** [set_log_level] and [main] *)
(* ===================================================================== *)






(* ===================================================================== *)
(** ** The resources of one pipeline *)
(* ===================================================================== *)

(** X18.  Every task a call of [add_table_migration] adds works on the
    source of the call, on its destination, or on the staging area of its
    source, and on no other resource.  The destination the tasks work on
    is the one given, on the same cluster, schema and table; only its
    explicit-ids mark may have been set. *)
Theorem pipeline_tasks_use_own_resources self source destination g h :
  WF self h ->
  exists h' new,
    add_table_migration self source destination g h = (inr tt, h')
    /\ TaskManager.tasks (task_manager h') = TaskManager.tasks (task_manager h) ++ new
    /\ (forall t r, In t new -> In r (resources_of (task_kind t)) ->
          r = source \/ r = effective_destination self destination)
    /\ cluster (effective_destination self destination) = cluster destination
    /\ schema (effective_destination self destination) = schema destination
    /\ table (effective_destination self destination) = table destination
    /\ class_of (effective_destination self destination) = class_of destination.
Proof.
  intros HW.
  destruct (add_table_migration_run self source destination g h HW)
    as (h' & new & newE & u & c & k & Hrun & _ & Hadd).
  destruct Hadd as (Ht & _ & _ & _ & _ & Hu & Hc & Hk & Hb & Hku & Hkc & Hkk & _ & _ & _
                    & Hcl & Hre & Hcr).
  exists h', new. split; [assumption|]. split; [assumption|]. split.
  - intros t r Hin Hr.
    assert (Hst : In (task_kind t) (map task_kind (at_stage (stage t) new))).
    { apply in_map. apply at_stage_in. auto. }
    destruct (stage t) eqn:Est.
    + rewrite Hb in Hst. destruct Hst.
    + rewrite Hcl in Hst.
      destruct (connectionPreTest g), (destinationTablePreTest g),
        (sourceTablePreTest g), (destinationTableAutoCreate g);
        simpl in Hst;
        repeat match goal with
               | H : _ \/ _ |- _ => destruct H as [H|H]
               | H : False |- _ => destruct H
               end;
        try (rewrite <- Hst in Hr; simpl in Hr; destruct Hr as [<-|[]]; auto).
    + rewrite Hre in Hst.
      destruct (destinationTablePreTest g), (sourceTablePreTest g),
        (destinationTableAutoCreate g);
        simpl in Hst;
        repeat match goal with
               | H : _ \/ _ |- _ => destruct H as [H|H]
               | H : False |- _ => destruct H
               end;
        try (rewrite <- Hst in Hr; simpl in Hr; destruct Hr as [<-|[]]; auto).
    + rewrite Hcr in Hst.
      destruct (destinationTableAutoCreate g); simpl in Hst;
        [|destruct Hst].
      destruct Hst as [Hst|[]]. rewrite <- Hst in Hr. simpl in Hr.
      destruct Hr as [<-|[<-|[]]]; auto.
    + rewrite Hu in Hst. simpl in Hst. destruct Hst as [Hst|[]].
      rewrite <- Hst, Hku in Hr. simpl in Hr. destruct Hr as [<-|[<-|[]]]; auto.
    + rewrite Hc in Hst. simpl in Hst. destruct Hst as [Hst|[]].
      rewrite <- Hst, Hkc in Hr. simpl in Hr. destruct Hr as [<-|[<-|[]]]; auto.
    + rewrite Hk in Hst. simpl in Hst. destruct Hst as [Hst|[]].
      rewrite <- Hst, Hkk in Hr. simpl in Hr. destruct Hr as [<-|[]]; auto.
  - unfold effective_destination.
    destruct (explicit_ids (copyTarget (config (config_helper self)))) as [[]|];
      auto.
Qed.

(** X18, for a call with every flag on. *)
Lemma pipeline_tasks_use_own_resources_witness :
  WF demo_self (demo_heap (demo_flags true true true true))
  /\ exists h',
       add_table_migration demo_self
         (demo_resource TableResource "source" 100)
         (demo_resource TableResource "target" 101)
         (demo_flags true true true true)
         (demo_heap (demo_flags true true true true)) = (inr tt, h').
Proof.
  split; [vm_compute; reflexivity|].
  destruct (pipeline_tasks_use_own_resources demo_self
              (demo_resource TableResource "source" 100)
              (demo_resource TableResource "target" 101)
              (demo_flags true true true true)
              (demo_heap (demo_flags true true true true)) eq_refl)
    as (h' & _ & Hrun & _).
  exists h'. exact Hrun.
Defined.
